(** * Breed recommendation engine (src/ai/flows/recommend-breeds.ts)

    A shallow embedding of the filter -> score -> rank -> merge pipeline of
    [recommendBreeds], and the properties of it that the specification
    states.

    Number model.  A JavaScript [number] is embedded as an exact rational
    ([Q]): the arithmetic of the source ([+ - * /], comparisons, [Math.min],
    [Math.max], [Math.round]) is read over the rationals.  [NaN], the
    infinities and the rounding error of binary64 arithmetic are outside the
    model.  Numeric equality of the source ([===] on numbers, a comparator
    returning [0]) is [Qeq], written [==]. *)

From Stdlib Require Import QArith Qround Qminmax Qabs ZArith Lia Lqa.
From stdpp Require Import base list sorting strings.

Local Open Scope Q_scope.

(** ** JavaScript numeric primitives over the rationals *)

Module JS.

Definition number : Type := Q.

(** [a > b] *)
Definition gt (a b : number) : bool :=
  match a ?= b with Gt => true | _ => false end.

(** [a === b] on numbers *)
Definition strict_eq (a b : number) : bool := Qeq_bool a b.

Definition Math_max (a b : number) : number := Qmax a b.
Definition Math_min (a b : number) : number := Qmin a b.

(** [Math.round]: the nearest integer, halves rounded towards +infinity. *)
Definition Math_round (x : number) : number := inject_Z (Qfloor (x + (1 # 2))).

(** [Array.prototype.includes] on an array of strings. *)
Fixpoint includes (l : list string) (x : string) : bool :=
  match l with
  | [] => false
  | y :: l' => if String.eqb y x then true else includes l' x
  end.

End JS.

(** ** Data model *)

(** The three qualitative levels ['Low' | 'Medium' | 'High']. *)
Inductive Tier : Set := Low | Medium | High.

Definition Tier_eqb (a b : Tier) : bool :=
  match a, b with
  | Low, Low | Medium, Medium | High, High => true
  | _, _ => false
  end.

(** A tier is a string at run time; this is the string it is. *)
Definition Tier_to_string (t : Tier) : string :=
  match t with Low => "Low" | Medium => "Medium" | High => "High" end.

(** Modelled from the spec: the element type of [indianBreedData]
    (src/lib/breed-data.ts declares it and the catalog itself); the record
    has the fields the spec's BreedRecord lists, which are the ones
    [recommendBreeds] reads. *)
Module Breed.
Record t : Type := Make {
  breedName : string;
  marketPrice : JS.number;
  milkYield : JS.number;
  strength : Tier;
  maintenanceCost : Tier;
  careLevel : Tier;
  climateSuitability : list string
}.
End Breed.

(** [goal: z.enum(['milk', 'draught', 'dual-purpose', 'low-maintenance'])] *)
Inductive Goal : Set := milk | draught | dual_purpose | low_maintenance.

Definition Goal_eqb (a b : Goal) : bool :=
  match a, b with
  | milk, milk | draught, draught | dual_purpose, dual_purpose
  | low_maintenance, low_maintenance => true
  | _, _ => false
  end.

Definition Goal_to_string (g : Goal) : string :=
  match g with
  | milk => "milk"
  | draught => "draught"
  | dual_purpose => "dual-purpose"
  | low_maintenance => "low-maintenance"
  end.

(** [RecommendBreedsInput] *)
Module Input.
Record t : Type := Make {
  goal : Goal;
  budget : JS.number;
  landSize : JS.number;
  regionalClimate : string;
  language : string
}.
End Input.

(** The [scores] object of a scored breed and of a recommendation. *)
Module Scores.
Record t : Type := Make {
  milkYieldScore : JS.number;
  strengthScore : JS.number;
  careRequirementScore : JS.number;
  roiScore : JS.number;
  climateMatchScore : JS.number
}.
End Scores.

(** The object the scoring [map] returns for one breed. *)
Module ScoredBreed.
Record t : Type := Make {
  breed : Breed.t;
  overallScore : JS.number;
  scores : Scores.t;
  roi : JS.number
}.
End ScoredBreed.

(** [RecommendedBreedSchema]: one entry of [RecommendBreedsOutput]. *)
Module Recommended.
Record t : Type := Make {
  breedName : string;
  overallScore : JS.number;
  pros : string;
  cons : string;
  roi : JS.number;
  careLevel : string;
  scores : Scores.t
}.
End Recommended.

(** [RecommendBreedsOutput] is [{ recommendedBreeds: RecommendedBreed[] }]. *)
Module Output.
Record t : Type := Make { recommendedBreeds : list Recommended.t }.
End Output.

(** The goal-dependent [weights] object. *)
Module Weights.
Record t : Type := Make {
  milk : JS.number;
  roi : JS.number;
  care : JS.number;
  climate : JS.number;
  strength : JS.number
}.

(** The sum of the five weights. *)
Definition total (w : t) : JS.number :=
  milk w + roi w + care w + climate w + strength w.
End Weights.

(** ** Helper functions for scoring *)

Definition normalize (value min max : JS.number) : JS.number :=
  if JS.strict_eq max min then 1
  else JS.Math_max 0 (JS.Math_min 1 ((value - min) / (max - min))).

Definition getScore (value : Tier) : JS.number :=
  match value with
  | High => 10
  | Medium => 5
  | Low => 1
  end.

(** ** Step 1: the hard-constraint filter *)

(** The callback given to [indianBreedData.filter]. *)
Definition keepBreed (input : Input.t) (breed : Breed.t) : bool :=
  if JS.gt (Breed.marketPrice breed) (Input.budget input) then false
  else if negb (JS.includes (Breed.climateSuitability breed)
                            (Input.regionalClimate input)) then false
  else if Goal_eqb (Input.goal input) low_maintenance
          && (negb (Tier_eqb (Breed.maintenanceCost breed) Low)
              || negb (Tier_eqb (Breed.careLevel breed) Low)) then false
  else true.

Definition filteredBreeds (indianBreedData : list Breed.t) (input : Input.t)
  : list Breed.t :=
  List.filter (keepBreed input) indianBreedData.

(** ** Steps 2 and 3: scoring *)

Definition milkYieldScore (breed : Breed.t) : JS.number :=
  normalize (Breed.milkYield breed) 1 15 * 10.

Definition strengthScore (breed : Breed.t) : JS.number :=
  getScore (Breed.strength breed).

Definition careRequirementScore (breed : Breed.t) : JS.number :=
  10 - getScore (Breed.careLevel breed).

Definition climateMatchScore : JS.number := 10.

(** Assumes an average milk price of 55 per liter. *)
Definition monthlyIncome (breed : Breed.t) : JS.number :=
  Breed.milkYield breed * 30 * 55.

Definition maintenanceMapping (t : Tier) : JS.number :=
  match t with Low => 3000 | Medium => 5000 | High => 8000 end.

Definition monthlyCost (breed : Breed.t) : JS.number :=
  maintenanceMapping (Breed.maintenanceCost breed).

Definition estimatedProfit (breed : Breed.t) : JS.number :=
  monthlyIncome breed - monthlyCost breed.

Definition roiScore (breed : Breed.t) : JS.number :=
  normalize (estimatedProfit breed) (-5000) 20000 * 10.

Definition initialInvestment (breed : Breed.t) : JS.number :=
  Breed.marketPrice breed.

Definition netAnnualProfit (breed : Breed.t) : JS.number :=
  estimatedProfit breed * 12.

(** The local [roi] of the scoring callback, before it is rounded. *)
Definition roi (breed : Breed.t) : JS.number :=
  if JS.gt (initialInvestment breed) 0
  then (netAnnualProfit breed / initialInvestment breed) * 100
  else 0.

(** The [switch (input.goal)]; the [default] label shares the last case. *)
Definition weights (goal : Goal) : Weights.t :=
  match goal with
  | milk =>
      {| Weights.milk := 0.5; Weights.roi := 0.3; Weights.care := 0.1;
         Weights.climate := 0.1; Weights.strength := 0 |}
  | draught =>
      {| Weights.milk := 0.1; Weights.roi := 0.2; Weights.care := 0.2;
         Weights.climate := 0.1; Weights.strength := 0.4 |}
  | dual_purpose =>
      {| Weights.milk := 0.3; Weights.roi := 0.3; Weights.care := 0.1;
         Weights.climate := 0.1; Weights.strength := 0.2 |}
  | low_maintenance =>
      {| Weights.milk := 0.1; Weights.roi := 0.3; Weights.care := 0.4;
         Weights.climate := 0.1; Weights.strength := 0 |}
  end.

(** The local [overallScore], before clamping and rounding. *)
Definition overallScore (input : Input.t) (breed : Breed.t) : JS.number :=
  let w := weights (Input.goal input) in
  milkYieldScore breed * Weights.milk w +
  strengthScore breed * Weights.strength w +
  careRequirementScore breed * Weights.care w +
  roiScore breed * Weights.roi w +
  climateMatchScore * Weights.climate w.

(** The callback given to [filteredBreeds.map]. *)
Definition scoreBreed (input : Input.t) (breed : Breed.t) : ScoredBreed.t :=
  {| ScoredBreed.breed := breed;
     ScoredBreed.overallScore :=
       JS.Math_round
         (JS.Math_min 10 (JS.Math_max 0 (overallScore input breed)) * 10) / 10;
     ScoredBreed.scores :=
       {| Scores.milkYieldScore := JS.Math_round (milkYieldScore breed);
          Scores.strengthScore := JS.Math_round (strengthScore breed);
          Scores.careRequirementScore := JS.Math_round (careRequirementScore breed);
          Scores.roiScore := JS.Math_round (roiScore breed);
          Scores.climateMatchScore := JS.Math_round climateMatchScore |};
     ScoredBreed.roi := JS.Math_round (roi breed) |}.

Definition scoredBreeds (indianBreedData : list Breed.t) (input : Input.t)
  : list ScoredBreed.t :=
  List.map (scoreBreed input) (filteredBreeds indianBreedData input).

(** ** Step 4: sort and select the top 3 *)

(** [Array.prototype.sort] with a comparator.  The sort of the language is
    stable; for a comparator that is a consistent ordering every stable sort
    returns the same array, and this insertion sort is one: an element is
    moved behind exactly the elements the comparator puts strictly before
    it. *)
Section ArraySort.
Context {A : Type} (compareFn : A -> A -> JS.number).

Fixpoint sort_insert (a : A) (sorted : list A) : list A :=
  match sorted with
  | [] => [a]
  | b :: rest =>
      if JS.gt (compareFn a b) 0 then b :: sort_insert a rest
      else a :: b :: rest
  end.

Fixpoint Array_sort (l : list A) : list A :=
  match l with
  | [] => []
  | a :: rest => sort_insert a (Array_sort rest)
  end.
End ArraySort.

(** The comparator [(a, b) => b.overallScore - a.overallScore]. *)
Definition byScoreDesc (a b : ScoredBreed.t) : JS.number :=
  ScoredBreed.overallScore b - ScoredBreed.overallScore a.

(** [scoredBreeds.sort(...).slice(0, 3)] *)
Definition rank (scored : list ScoredBreed.t) : list ScoredBreed.t :=
  take 3 (Array_sort byScoreDesc scored).

Definition topBreeds (indianBreedData : list Breed.t) (input : Input.t)
  : list ScoredBreed.t :=
  rank (scoredBreeds indianBreedData input).

(** ** Step 5: the text-generation collaborator and the merge *)

(** One element of [breedsForPrompt]: the two computed figures and the raw
    breed record spread over the object ([breedName] and [careLevel] are
    written first and then overwritten by the spread with the same
    values). *)
Module PromptBreed.
Record t : Type := Make {
  overallScore : JS.number;
  roi : JS.number;
  raw : Breed.t
}.
End PromptBreed.

Module Prompt.
(** The argument of [recommendationPrompt]. *)
Record request : Type := Request {
  language : string;
  goal : string;
  breeds : list PromptBreed.t
}.

(** What awaiting the call gives: the call throws, or it returns an
    object whose [output] is absent ([null]) or a parsed
    [RecommendBreedsOutput]. *)
Inductive reply : Type :=
| Failed (message : string)
| Returned (output : option Output.t).
End Prompt.

(** An asynchronous computation that may await the collaborator: it
    returns, throws, or issues a request and continues with the reply. *)
Inductive Flow (A : Type) : Type :=
| Return (a : A)
| Throw (message : string)
| Await (req : Prompt.request) (k : Prompt.reply -> Flow A).

Arguments Return {A} a.
Arguments Throw {A} message.
Arguments Await {A} req k.

(** How a promise settles. *)
Inductive Settled (A : Type) : Type :=
| Fulfilled (a : A)
| Rejected (message : string).

Arguments Fulfilled {A} a.
Arguments Rejected {A} message.

(** Running a flow against a collaborator: the requests made, oldest first,
    and how the promise settles. *)
Fixpoint run {A : Type} (collaborator : Prompt.request -> Prompt.reply)
    (f : Flow A) : list Prompt.request * Settled A :=
  match f with
  | Return a => ([], Fulfilled a)
  | Throw message => ([], Rejected message)
  | Await req k =>
      let '(calls, r) := run collaborator (k (collaborator req)) in
      (req :: calls, r)
  end.

Definition breedsForPrompt (top : list ScoredBreed.t) : list PromptBreed.t :=
  List.map (fun b =>
    {| PromptBreed.overallScore := ScoredBreed.overallScore b;
       PromptBreed.roi := ScoredBreed.roi b;
       PromptBreed.raw := ScoredBreed.breed b |}) top.

(** The object literal [{ ...rec, overallScore: ..., roi: ..., careLevel: ...,
    scores: ... }]: the collaborator's entry with four fields overwritten. *)
Definition mergeEntry (rec : Recommended.t)
    (originalBreedData : ScoredBreed.t) : Recommended.t :=
  {| Recommended.breedName := Recommended.breedName rec;
     Recommended.pros := Recommended.pros rec;
     Recommended.cons := Recommended.cons rec;
     Recommended.overallScore := ScoredBreed.overallScore originalBreedData;
     Recommended.roi := ScoredBreed.roi originalBreedData;
     Recommended.careLevel :=
       Tier_to_string (Breed.careLevel (ScoredBreed.breed originalBreedData));
     Recommended.scores := ScoredBreed.scores originalBreedData |}.

(** The callback of [output.recommendedBreeds.map]: [None] is [null]. *)
Definition combineOne (top : list ScoredBreed.t) (index : nat)
    (rec : Recommended.t) : option Recommended.t :=
  match top !! index with
  | None => None
  | Some originalBreedData => Some (mergeEntry rec originalBreedData)
  end.

(** [output.recommendedBreeds.map(...).filter(b => b !== null)] *)
Definition combinedResult (top : list ScoredBreed.t) (output : Output.t)
  : Output.t :=
  {| Output.recommendedBreeds :=
       omap id (imap (combineOne top) (Output.recommendedBreeds output)) |}.

(** The argument [recommendBreeds] passes to [recommendationPrompt]. *)
Definition promptRequest (input : Input.t) (top : list ScoredBreed.t)
  : Prompt.request :=
  {| Prompt.language := Input.language input;
     Prompt.goal := Goal_to_string (Input.goal input);
     Prompt.breeds := breedsForPrompt top |}.

Definition recommendBreeds (indianBreedData : list Breed.t) (input : Input.t)
  : Flow Output.t :=
  let filtered := filteredBreeds indianBreedData input in
  if Nat.eqb (length filtered) 0 then
    Return {| Output.recommendedBreeds := [] |}
  else
    let top := rank (List.map (scoreBreed input) filtered) in
    Await (promptRequest input top)
      (fun reply =>
         match reply with
         | Prompt.Failed message => Throw message
         | Prompt.Returned None =>
             Throw "Failed to get recommendations from AI model."
         | Prompt.Returned (Some output) => Return (combinedResult top output)
         end).

(** ** Vocabulary of the specification *)

(** The three hard constraints, as the specification words them. *)
Definition satisfiesConstraints (input : Input.t) (b : Breed.t) : Prop :=
  Breed.marketPrice b <= Input.budget input /\
  Input.regionalClimate input ∈ Breed.climateSuitability b /\
  (Input.goal input <> low_maintenance \/
   (Breed.maintenanceCost b = Low /\ Breed.careLevel b = Low)).

(** A displayed sub-score: an integer between 0 and 10. *)
Definition is_subscore (x : JS.number) : Prop :=
  exists z : Z, x = inject_Z z /\ (0 <= z <= 10)%Z.

(** [a] is ranked no lower than [b]. *)
Definition scoreDescending (a b : ScoredBreed.t) : Prop :=
  ScoredBreed.overallScore b <= ScoredBreed.overallScore a.

(** The entries whose overall score is numerically [s]. *)
Definition tiedAt (s : JS.number) (x : ScoredBreed.t) : bool :=
  JS.strict_eq (ScoredBreed.overallScore x) s.

(** ** Concrete data used in the examples below *)

Module Examples.

(** Scenario A of the specification. *)
Definition scenarioA_breed : Breed.t :=
  {| Breed.breedName := "Gir";
     Breed.marketPrice := 40000;
     Breed.milkYield := 10;
     Breed.strength := Medium;
     Breed.maintenanceCost := Low;
     Breed.careLevel := Low;
     Breed.climateSuitability := ["Hot and Dry"] |}.

Definition scenarioA_input : Input.t :=
  {| Input.goal := milk;
     Input.budget := 50000;
     Input.landSize := 1;
     Input.regionalClimate := "Hot and Dry";
     Input.language := "en" |}.

(** The same breed at a price that does not divide its annual profit. *)
Definition costly_breed : Breed.t :=
  {| Breed.breedName := "Sahiwal";
     Breed.marketPrice := 70000;
     Breed.milkYield := 10;
     Breed.strength := Medium;
     Breed.maintenanceCost := Low;
     Breed.careLevel := Low;
     Breed.climateSuitability := ["Hot and Dry"] |}.

(** Scenario A's request with a budget of 80000. *)
Definition larger_budget_input : Input.t :=
  {| Input.goal := milk;
     Input.budget := 80000;
     Input.landSize := 1;
     Input.regionalClimate := "Hot and Dry";
     Input.language := "en" |}.

Definition costly_scored : ScoredBreed.t :=
  scoreBreed larger_budget_input costly_breed.

Definition no_scores : Scores.t :=
  {| Scores.milkYieldScore := 0; Scores.strengthScore := 0;
     Scores.careRequirementScore := 0; Scores.roiScore := 0;
     Scores.climateMatchScore := 0 |}.

(** A collaborator that answers with an output holding no items. *)
Definition silent_collaborator (_ : Prompt.request) : Prompt.reply :=
  Prompt.Returned (Some {| Output.recommendedBreeds := [] |}).

(** A collaborator that fills every numeric field with a figure of its
    own. *)
Definition inventive_entry (b : PromptBreed.t) : Recommended.t :=
  {| Recommended.breedName := Breed.breedName (PromptBreed.raw b);
     Recommended.overallScore := 99;
     Recommended.pros := "High milk yield";
     Recommended.cons := "Needs shade";
     Recommended.roi := -1;
     Recommended.careLevel := "High";
     Recommended.scores := no_scores |}.

Definition inventive_collaborator (req : Prompt.request) : Prompt.reply :=
  Prompt.Returned
    (Some {| Output.recommendedBreeds :=
               List.map inventive_entry (Prompt.breeds req) |}).

(** What [recommendBreeds] answers in scenario A with that collaborator. *)
Definition inventive_result : Output.t :=
  {| Output.recommendedBreeds :=
       [ {| Recommended.breedName := "Gir";
            Recommended.overallScore := ScoredBreed.overallScore
              (scoreBreed scenarioA_input scenarioA_breed);
            Recommended.pros := "High milk yield";
            Recommended.cons := "Needs shade";
            Recommended.roi := ScoredBreed.roi
              (scoreBreed scenarioA_input scenarioA_breed);
            Recommended.careLevel := "Low";
            Recommended.scores := ScoredBreed.scores
              (scoreBreed scenarioA_input scenarioA_breed) |} ] |}.

(** Scenario B of the specification: a budget below every price. *)
Definition scenarioB_input : Input.t :=
  {| Input.goal := milk;
     Input.budget := 10000;
     Input.landSize := 1;
     Input.regionalClimate := "Hot and Dry";
     Input.language := "en" |}.

(** Scenario A's request for a farm of 25 acres. *)
Definition larger_farm_input : Input.t :=
  {| Input.goal := milk;
     Input.budget := 50000;
     Input.landSize := 25;
     Input.regionalClimate := "Hot and Dry";
     Input.language := "en" |}.

End Examples.

(** ** The decision-support form (src/components/pashu-ai/DecisionSupport.tsx) *)

(** [String.prototype.includes]: [sub] occurs somewhere in [s]. *)
Fixpoint String_includes (s sub : string) : bool :=
  if String.prefix sub s then true
  else match s with
       | EmptyString => false
       | String _ rest => String_includes rest sub
       end.

Module UI.

(** The component state that [onSubmit] and [handleBreedSelection] touch. *)
Record state : Type := State {
  isLoading : bool;
  error : option string;
  recommendations : option Output.t;
  selectedBreeds : list Recommended.t
}.

(** The two entries of the translation table that [onSubmit] reads. *)
Record translations : Type := Translations {
  serviceUnavailableError : string;
  errorDescription : string
}.

(** [FormValues], the object the form hands to [onSubmit]. *)
Record FormValues : Type := Values {
  goal : Goal;
  budget : JS.number;
  landSize : JS.number;
  regionalClimate : string
}.

(** [{ ...values, language }] *)
Definition toInput (values : FormValues) (language : string) : Input.t :=
  {| Input.goal := goal values;
     Input.budget := budget values;
     Input.landSize := landSize values;
     Input.regionalClimate := regionalClimate values;
     Input.language := language |}.

(** The state [onSubmit] sets before it awaits [recommendBreeds]. *)
Definition onSubmit_pending (st : state) : state :=
  {| isLoading := true;
     error := None;
     recommendations := None;
     selectedBreeds := [] |}.

(** The [catch] block's choice of message:
    [err.message && err.message.includes('503')]. *)
Definition errorText (t : translations) (message : string) : string :=
  if negb (String.eqb message "") && String_includes message "503"
  then serviceUnavailableError t
  else errorDescription t.

(** The state once the promise of [recommendBreeds] has settled and the
    [finally] block has run. *)
Definition onSubmit (indianBreedData : list Breed.t)
    (collaborator : Prompt.request -> Prompt.reply)
    (t : translations) (language : string)
    (values : FormValues) (st : state) : state :=
  let pending := onSubmit_pending st in
  let input := toInput values language in
  match snd (run collaborator (recommendBreeds indianBreedData input)) with
  | Fulfilled result =>
      {| isLoading := false;
         error := error pending;
         recommendations := Some result;
         selectedBreeds := selectedBreeds pending |}
  | Rejected message =>
      {| isLoading := false;
         error := Some (errorText t message);
         recommendations := recommendations pending;
         selectedBreeds := selectedBreeds pending |}
  end.

(** The next value of [selectedBreeds]. *)
Definition handleBreedSelection (selected : list Recommended.t)
    (breed : Recommended.t) (isSelected : bool) : list Recommended.t :=
  if isSelected then
    if Nat.ltb (length selected) 3 then selected ++ [breed] else selected
  else
    List.filter
      (fun b => negb (String.eqb (Recommended.breedName b)
                                 (Recommended.breedName breed)))
      selected.

(** [selectedBreeds.some(b => b.breedName === rec.breedName)] *)
Definition isChosen (selected : list Recommended.t) (rec : Recommended.t)
  : bool :=
  List.existsb
    (fun b => String.eqb (Recommended.breedName b) (Recommended.breedName rec))
    selected.

(** The [disabled] attribute of the compare checkbox of [rec]. *)
Definition checkboxDisabled (selected : list Recommended.t)
    (rec : Recommended.t) : bool :=
  Nat.leb 3 (length selected) && negb (isChosen selected rec).

(** Whether the "no breeds found" alert is rendered. *)
Definition noBreedsFoundShown (st : state) : bool :=
  match recommendations st with
  | Some result => Nat.eqb (length (Output.recommendedBreeds result)) 0
  | None => false
  end.

(** One click on a compare checkbox. *)
Definition click : Type := (Recommended.t * bool)%type.

(** The selection after a series of clicks, one render per click. *)
Definition afterClicks (selected : list Recommended.t) (clicks : list click)
  : list Recommended.t :=
  List.fold_left (fun sel c => handleBreedSelection sel (fst c) (snd c))
    clicks selected.

End UI.

(** ** Further vocabulary *)

(** The position of a tier on the scale Low < Medium < High. *)
Definition Tier_rank (t : Tier) : nat :=
  match t with Low => 0 | Medium => 1 | High => 2 end.

(** [b2] yields no less milk, is no weaker, and needs no more care and no
    more upkeep than [b1]. *)
Definition noWorse (b1 b2 : Breed.t) : Prop :=
  Breed.milkYield b1 <= Breed.milkYield b2 /\
  (Tier_rank (Breed.strength b1) <= Tier_rank (Breed.strength b2))%nat /\
  (Tier_rank (Breed.careLevel b2) <= Tier_rank (Breed.careLevel b1))%nat /\
  (Tier_rank (Breed.maintenanceCost b2)
   <= Tier_rank (Breed.maintenanceCost b1))%nat.

(** The two breeds differ at most in name, price and climates. *)
Definition sameTraits (b1 b2 : Breed.t) : Prop :=
  Breed.milkYield b1 = Breed.milkYield b2 /\
  Breed.strength b1 = Breed.strength b2 /\
  Breed.maintenanceCost b1 = Breed.maintenanceCost b2 /\
  Breed.careLevel b1 = Breed.careLevel b2.

(** The largest overall score the weights of a goal allow. *)
Definition scoreCeiling (goal : Goal) : JS.number :=
  match goal with
  | milk => 9.9
  | draught => 9.8
  | dual_purpose => 9.9
  | low_maintenance => 8.6
  end.

(** More data for the examples. *)
Module MoreExamples.

(** Scenario A's breed, stronger and yielding more milk. *)
Definition better_breed : Breed.t :=
  {| Breed.breedName := "Tharparkar";
     Breed.marketPrice := 45000;
     Breed.milkYield := 12;
     Breed.strength := High;
     Breed.maintenanceCost := Low;
     Breed.careLevel := Low;
     Breed.climateSuitability := ["Hot and Dry"] |}.

(** Scenario A's request for the low-maintenance goal. *)
Definition low_maintenance_input : Input.t :=
  {| Input.goal := low_maintenance;
     Input.budget := 50000;
     Input.landSize := 1;
     Input.regionalClimate := "Hot and Dry";
     Input.language := "en" |}.

Definition en : UI.translations :=
  {| UI.serviceUnavailableError := "The service is busy. Try again later.";
     UI.errorDescription := "Something went wrong." |}.

Definition scenarioA_values : UI.FormValues :=
  {| UI.goal := milk; UI.budget := 50000; UI.landSize := 1;
     UI.regionalClimate := "Hot and Dry" |}.

Definition larger_farm_values : UI.FormValues :=
  {| UI.goal := milk; UI.budget := 50000; UI.landSize := 25;
     UI.regionalClimate := "Hot and Dry" |}.

Definition scenarioB_values : UI.FormValues :=
  {| UI.goal := milk; UI.budget := 10000; UI.landSize := 1;
     UI.regionalClimate := "Hot and Dry" |}.

(** A collaborator whose call fails with a service-unavailable error. *)
Definition overloaded_collaborator (_ : Prompt.request) : Prompt.reply :=
  Prompt.Failed "[503 Service Unavailable] The model is overloaded.".

(** A collaborator that returns no output object. *)
Definition mute_collaborator (_ : Prompt.request) : Prompt.reply :=
  Prompt.Returned None.

Definition idle : UI.state :=
  {| UI.isLoading := false; UI.error := None;
     UI.recommendations := None; UI.selectedBreeds := [] |}.

Definition gir : Recommended.t :=
  Examples.inventive_entry
    {| PromptBreed.overallScore := 7.3; PromptBreed.roi := 405;
       PromptBreed.raw := Examples.scenarioA_breed |}.

Definition sahiwal : Recommended.t :=
  Examples.inventive_entry
    {| PromptBreed.overallScore := 7.3; PromptBreed.roi := 231;
       PromptBreed.raw := Examples.costly_breed |}.

Definition tharparkar : Recommended.t :=
  Examples.inventive_entry
    {| PromptBreed.overallScore := 8.8; PromptBreed.roi := 400;
       PromptBreed.raw := better_breed |}.

End MoreExamples.

(** * Properties *)

(** ** Facts about the numeric primitives *)

Lemma gt_true (a b : Q) : JS.gt a b = true <-> b < a.
Proof.
  unfold JS.gt. rewrite Qgt_alt.
  destruct (a ?= b); split; intros H; congruence.
Qed.

Lemma gt_false (a b : Q) : JS.gt a b = false <-> a <= b.
Proof.
  unfold JS.gt. rewrite Qle_alt.
  destruct (a ?= b); split; intros H; congruence.
Qed.

(** Clamping into an interval, as [Math.max lo (Math.min hi x)]. *)
Lemma clamp_cases (lo hi x : Q) :
  lo <= hi ->
  (x <= lo /\ JS.Math_max lo (JS.Math_min hi x) == lo) \/
  (lo <= x <= hi /\ JS.Math_max lo (JS.Math_min hi x) == x) \/
  (hi <= x /\ JS.Math_max lo (JS.Math_min hi x) == hi).
Proof.
  intros Hlh. unfold JS.Math_max, JS.Math_min.
  destruct (Q.min_spec hi x) as [[H1 E1] | [H1 E1]];
    destruct (Q.max_spec lo (Qmin hi x)) as [[H2 E2] | [H2 E2]];
    rewrite E2; rewrite E1 in *.
  - right; right. split; [lra | reflexivity].
  - right; right. split; [lra |]. lra.
  - right; left. split; [lra | reflexivity].
  - left. split; [lra | reflexivity].
Qed.

(** The same clamp written the other way round, [Math.min hi (Math.max lo x)]. *)
Lemma clamp_cases' (lo hi x : Q) :
  lo <= hi ->
  (x <= lo /\ JS.Math_min hi (JS.Math_max lo x) == lo) \/
  (lo <= x <= hi /\ JS.Math_min hi (JS.Math_max lo x) == x) \/
  (hi <= x /\ JS.Math_min hi (JS.Math_max lo x) == hi).
Proof.
  intros Hlh. unfold JS.Math_max, JS.Math_min.
  destruct (Q.max_spec lo x) as [[H1 E1] | [H1 E1]];
    destruct (Q.min_spec hi (Qmax lo x)) as [[H2 E2] | [H2 E2]];
    rewrite E2; rewrite E1 in *.
  - right; right. split; [lra | reflexivity].
  - right; left. split; [lra | reflexivity].
  - left. split; [lra |]. lra.
  - left. split; [lra | reflexivity].
Qed.

Lemma Math_round_near (x : Q) :
  x - (1 # 2) < JS.Math_round x /\ JS.Math_round x <= x + (1 # 2).
Proof.
  unfold JS.Math_round. split.
  - pose proof (Qlt_floor (x + (1 # 2))) as H.
    rewrite inject_Z_plus in H. change (inject_Z 1) with 1 in H. lra.
  - apply Qfloor_le.
Qed.

Lemma Math_round_between (lo hi : Z) (x : Q) :
  inject_Z lo <= x <= inject_Z hi ->
  exists z : Z, JS.Math_round x = inject_Z z /\ (lo <= z <= hi)%Z.
Proof.
  intros [Hlo Hhi]. unfold JS.Math_round. eexists; split; [reflexivity |].
  split.
  - rewrite <- (Qfloor_Z lo). apply Qfloor_resp_le. lra.
  - assert (H : (Qfloor (x + (1 # 2)) < hi + 1)%Z); [| lia].
    rewrite Zlt_Qlt. eapply Qle_lt_trans; [apply Qfloor_le |].
    rewrite inject_Z_plus. change (inject_Z 1) with 1. lra.
Qed.

(** ** [normalize] *)

Lemma normalize_degenerate (value a : Q) : normalize value a a = 1.
Proof.
  unfold normalize, JS.strict_eq.
  replace (Qeq_bool a a) with true; [reflexivity |].
  symmetry. apply Qeq_bool_iff. reflexivity.
Qed.

Lemma normalize_clamped (value min max : Q) :
  ~ max == min ->
  normalize value min max
  = JS.Math_max 0 (JS.Math_min 1 ((value - min) / (max - min))).
Proof.
  intros Hne. unfold normalize, JS.strict_eq.
  destruct (Qeq_bool max min) eqn:E; [| reflexivity].
  apply Qeq_bool_iff in E. contradiction.
Qed.

Lemma normalize_range (value min max : Q) :
  0 <= normalize value min max <= 1.
Proof.
  unfold normalize. destruct (JS.strict_eq max min); [lra |].
  destruct (clamp_cases 0 1 ((value - min) / (max - min))) as
    [[_ E] | [[[H1 H2] E] | [_ E]]]; try lra; rewrite E; lra.
Qed.

Lemma ratio_le (a b d : Q) : 0 < d -> a <= b -> a / d <= b / d.
Proof.
  intros Hd Hab. unfold Qdiv. apply Qmult_le_compat_r; [exact Hab |].
  apply Qlt_le_weak, Qinv_lt_0_compat, Hd.
Qed.

Lemma ratio_bounds (value min max : Q) :
  min < max ->
  (value <= min -> (value - min) / (max - min) <= 0) /\
  (min <= value -> 0 <= (value - min) / (max - min)) /\
  (value <= max -> (value - min) / (max - min) <= 1) /\
  (max <= value -> 1 <= (value - min) / (max - min)).
Proof.
  intros Hlt. assert (Hd : 0 < max - min) by lra. repeat split; intros H.
  - apply Qle_shift_div_r; [exact Hd | lra].
  - apply Qle_shift_div_l; [exact Hd | lra].
  - apply Qle_shift_div_r; [exact Hd | lra].
  - apply Qle_shift_div_l; [exact Hd | lra].
Qed.

Lemma normalize_monotone (v1 v2 min max : Q) :
  min < max -> v1 <= v2 -> normalize v1 min max <= normalize v2 min max.
Proof.
  intros Hlt Hv.
  assert (Hne : ~ max == min) by lra.
  rewrite !normalize_clamped by exact Hne.
  assert (Hr : (v1 - min) / (max - min) <= (v2 - min) / (max - min)).
  { apply ratio_le; lra. }
  destruct (clamp_cases 0 1 ((v1 - min) / (max - min))) as
    [[H1 E1] | [[H1 E1] | [H1 E1]]]; try lra;
  destruct (clamp_cases 0 1 ((v2 - min) / (max - min))) as
    [[H2 E2] | [[H2 E2] | [H2 E2]]]; try lra; rewrite E1, E2; lra.
Qed.

(** C8: [normalize] stays in [0, 1] for all arguments; when [min < max] it
    is [0] at or below [min], [1] at or above [max], the linear
    interpolation [(value - min) / (max - min)] in between, and monotone in
    [value]; on a degenerate range it is [1] whatever the value. *)
Theorem normalize_spec (value value' min max a : Q) :
  0 <= normalize value min max <= 1 /\
  (min < max ->
     (value <= min -> normalize value min max == 0) /\
     (max <= value -> normalize value min max == 1) /\
     (min <= value <= max ->
        normalize value min max == (value - min) / (max - min)) /\
     (value <= value' ->
        normalize value min max <= normalize value' min max)) /\
  normalize value a a = 1.
Proof.
  split; [apply normalize_range |].
  split; [| apply normalize_degenerate].
  intros Hlt.
  assert (Hne : ~ max == min) by lra.
  destruct (ratio_bounds value min max Hlt) as (B1 & B2 & B3 & B4).
  rewrite (normalize_clamped value) by exact Hne.
  repeat split.
  - intros H. specialize (B1 H).
    destruct (clamp_cases 0 1 ((value - min) / (max - min))) as
      [[_ E] | [[[H1 H2] E] | [H1 E]]]; try lra; rewrite E; lra.
  - intros H. specialize (B4 H).
    destruct (clamp_cases 0 1 ((value - min) / (max - min))) as
      [[H1 E] | [[[H1 H2] E] | [_ E]]]; try lra; rewrite E; lra.
  - intros [Ha Hb]. specialize (B2 Ha). specialize (B3 Hb).
    destruct (clamp_cases 0 1 ((value - min) / (max - min))) as
      [[H1 E] | [[_ E] | [H1 E]]]; try lra; rewrite E; lra.
  - intros H. rewrite <- (normalize_clamped value) by exact Hne.
    apply normalize_monotone; assumption.
Qed.

Lemma normalize_spec_witness :
  normalize 1 1 15 == 0 /\ normalize 20 1 15 == 1 /\
  normalize 8 1 15 == (8 - 1) / (15 - 1) /\
  normalize 8 1 15 <= normalize 10 1 15.
Proof.
  assert (Hlt : 1 < 15) by reflexivity.
  destruct (normalize_spec 1 1 1 15 0) as (_ & H1 & _).
  destruct (normalize_spec 20 20 1 15 0) as (_ & H2 & _).
  destruct (normalize_spec 8 10 1 15 0) as (_ & H3 & _).
  destruct (H1 Hlt) as (Z1 & _).
  destruct (H2 Hlt) as (_ & Z2 & _).
  destruct (H3 Hlt) as (_ & _ & Z3 & Z4).
  split; [apply Z1; discriminate |].
  split; [apply Z2; discriminate |].
  split; [apply Z3; split; discriminate | apply Z4; discriminate].
Defined.

(** ** The hard-constraint filter *)

Lemma includes_spec (l : list string) (x : string) :
  JS.includes l x = true <-> x ∈ l.
Proof.
  induction l as [| y l IH]; simpl.
  - split; [discriminate | intros H; inversion H].
  - rewrite elem_of_cons. destruct (String.eqb y x) eqn:E.
    + apply String.eqb_eq in E. subst. split; auto.
    + apply String.eqb_neq in E. rewrite IH. split; [auto |].
      intros [-> | H]; [contradiction | exact H].
Qed.

Lemma Tier_eqb_spec (a b : Tier) : Tier_eqb a b = true <-> a = b.
Proof. destruct a, b; simpl; split; congruence. Qed.

Lemma Goal_eqb_spec (a b : Goal) : Goal_eqb a b = true <-> a = b.
Proof. destruct a, b; simpl; split; congruence. Qed.

Lemma keepBreed_spec (input : Input.t) (b : Breed.t) :
  keepBreed input b = true <-> satisfiesConstraints input b.
Proof.
  unfold keepBreed, satisfiesConstraints.
  rewrite <- gt_false, <- includes_spec.
  destruct (JS.gt (Breed.marketPrice b) (Input.budget input));
    [split; [discriminate | intros (H & _); discriminate] |].
  destruct (JS.includes (Breed.climateSuitability b)
              (Input.regionalClimate input));
    [| split; [discriminate | intros (_ & H & _); discriminate]].
  simpl.
  destruct (Goal_eqb (Input.goal input) low_maintenance) eqn:Eg; simpl.
  - apply Goal_eqb_spec in Eg.
    destruct (Breed.maintenanceCost b), (Breed.careLevel b); simpl; split;
      first
        [ discriminate
        | intros _; reflexivity
        | intros _; split;
            [reflexivity | split; [reflexivity | right; split; reflexivity]]
        | intros (_ & _ & [Hg | [Hm Hc]]); [contradiction | discriminate] ].
  - split; [| reflexivity]. intros _. repeat split. left.
    intros Hg. apply Goal_eqb_spec in Hg. congruence.
Qed.

Lemma filter_sublist_of {A : Type} (f : A -> bool) (l : list A) :
  List.filter f l `sublist_of` l.
Proof.
  induction l as [| x l IH]; simpl.
  - constructor.
  - destruct (f x); [apply sublist_skip | apply sublist_cons]; exact IH.
Qed.

Lemma elem_of_filteredBreeds (catalog : list Breed.t) (input : Input.t)
    (b : Breed.t) :
  b ∈ filteredBreeds catalog input <-> b ∈ catalog /\ keepBreed input b = true.
Proof.
  unfold filteredBreeds. rewrite !list_elem_of_In. apply filter_In.
Qed.

(** C1: a breed is in the filtered set exactly when it is a catalog breed
    within budget, suited to the regional climate and, for the
    low-maintenance goal, of low maintenance cost and low care level; the
    filtered set is a subsequence of the catalog, so catalog order is kept. *)
Theorem filteredBreeds_spec (catalog : list Breed.t) (input : Input.t) :
  (forall b : Breed.t,
     b ∈ filteredBreeds catalog input <->
     b ∈ catalog /\
     Breed.marketPrice b <= Input.budget input /\
     Input.regionalClimate input ∈ Breed.climateSuitability b /\
     (Input.goal input <> low_maintenance \/
      (Breed.maintenanceCost b = Low /\ Breed.careLevel b = Low))) /\
  filteredBreeds catalog input `sublist_of` catalog.
Proof.
  split.
  - intros b. rewrite elem_of_filteredBreeds, keepBreed_spec. reflexivity.
  - apply filter_sublist_of.
Qed.

(** ** The goal-dependent weights *)

(** C2: the weight vectors of the goals milk, draught and dual-purpose sum
    to 1; the vector of the low-maintenance goal (0.1, 0.3, 0.4, 0.1, 0)
    sums to 0.9, not to 1. *)
Theorem weights_total :
  Weights.total (weights milk) == 1 /\
  Weights.total (weights draught) == 1 /\
  Weights.total (weights dual_purpose) == 1 /\
  Weights.total (weights low_maintenance) == 0.9 /\
  ~ Weights.total (weights low_maintenance) == 1.
Proof. repeat split; discriminate. Qed.

(** ** The scorer *)

Lemma elem_of_scoredBreeds (catalog : list Breed.t) (input : Input.t)
    (sb : ScoredBreed.t) :
  sb ∈ scoredBreeds catalog input <->
  exists b, sb = scoreBreed input b /\ b ∈ filteredBreeds catalog input.
Proof.
  unfold scoredBreeds. rewrite list_elem_of_In, in_map_iff.
  split; intros (b & H1 & H2); exists b.
  - split; [congruence | apply list_elem_of_In, H2].
  - split; [congruence | apply list_elem_of_In, H2].
Qed.

Lemma round_subscore (x : Q) : 0 <= x <= 10 -> is_subscore (JS.Math_round x).
Proof. intros H. apply (Math_round_between 0 10). exact H. Qed.

Lemma milkYieldScore_range (b : Breed.t) : 0 <= milkYieldScore b <= 10.
Proof.
  unfold milkYieldScore.
  pose proof (normalize_range (Breed.milkYield b) 1 15). lra.
Qed.

Lemma roiScore_range (b : Breed.t) : 0 <= roiScore b <= 10.
Proof.
  unfold roiScore.
  pose proof (normalize_range (estimatedProfit b) (-5000) 20000). lra.
Qed.

Lemma strengthScore_range (b : Breed.t) : 0 <= strengthScore b <= 10.
Proof. unfold strengthScore. destruct (Breed.strength b); simpl; lra. Qed.

Lemma careRequirementScore_range (b : Breed.t) :
  0 <= careRequirementScore b <= 10.
Proof.
  unfold careRequirementScore. destruct (Breed.careLevel b); simpl; lra.
Qed.

Lemma clamped_overall_range (x : Q) :
  0 <= JS.Math_min 10 (JS.Math_max 0 x) <= 10.
Proof.
  destruct (clamp_cases' 0 10 x) as [[_ E] | [[H E] | [_ E]]];
    try lra; rewrite E; lra.
Qed.

Lemma tenths_range (c : Q) :
  0 <= c <= 10 ->
  exists tenths : Z,
    JS.Math_round (c * 10) / 10 = inject_Z tenths / 10 /\
    (0 <= tenths <= 100)%Z.
Proof.
  intros H. destruct (Math_round_between 0 100 (c * 10)) as (z & E & Hz).
  - change (inject_Z 0) with 0. change (inject_Z 100) with 100. lra.
  - exists z. rewrite E. split; [reflexivity | exact Hz].
Qed.

Lemma tenths_bounds (z : Z) :
  (0 <= z <= 100)%Z -> 0 <= inject_Z z / 10 <= 10.
Proof.
  intros [H0 H100]. rewrite Zle_Qle in H0, H100.
  change (inject_Z 0) with 0 in H0. change (inject_Z 100) with 100 in H100.
  split.
  - apply Qle_shift_div_l; lra.
  - apply Qle_shift_div_r; lra.
Qed.

Lemma round_tenths_near (c : Q) :
  Qabs (JS.Math_round (c * 10) / 10 - c) <= 1 # 20.
Proof.
  pose proof (Math_round_near (c * 10)) as [Hlo Hhi].
  assert (H1 : c - (1 # 20) <= JS.Math_round (c * 10) / 10).
  { apply Qle_shift_div_l; lra. }
  assert (H2 : JS.Math_round (c * 10) / 10 <= c + (1 # 20)).
  { apply Qle_shift_div_r; lra. }
  apply (proj2 (Qabs_Qle_condition _ _)). split; lra.
Qed.

(** C3: for every scored (filtered) breed, the overall score is the value
    clamped to [0, 10] and then rounded to one decimal place, so it is a
    whole number of tenths in [0, 10] within 0.05 of the clamped value; each
    of the five sub-scores is an integer in [0, 10]. *)
Theorem scoredBreeds_bounds (catalog : list Breed.t) (input : Input.t)
    (sb : ScoredBreed.t) :
  sb ∈ scoredBreeds catalog input ->
  let clamped :=
    JS.Math_min 10 (JS.Math_max 0 (overallScore input (ScoredBreed.breed sb))) in
  0 <= clamped <= 10 /\
  ScoredBreed.overallScore sb = JS.Math_round (clamped * 10) / 10 /\
  (exists tenths : Z,
     ScoredBreed.overallScore sb = inject_Z tenths / 10 /\
     (0 <= tenths <= 100)%Z) /\
  0 <= ScoredBreed.overallScore sb <= 10 /\
  Qabs (ScoredBreed.overallScore sb - clamped) <= 1 # 20 /\
  is_subscore (Scores.milkYieldScore (ScoredBreed.scores sb)) /\
  is_subscore (Scores.strengthScore (ScoredBreed.scores sb)) /\
  is_subscore (Scores.careRequirementScore (ScoredBreed.scores sb)) /\
  is_subscore (Scores.roiScore (ScoredBreed.scores sb)) /\
  is_subscore (Scores.climateMatchScore (ScoredBreed.scores sb)).
Proof.
  intros Hin clamped.
  apply elem_of_scoredBreeds in Hin. destruct Hin as (b & -> & _).
  simpl in clamped. simpl.
  pose proof (clamped_overall_range (overallScore input b)) as Hc.
  fold clamped in Hc |- *.
  destruct (tenths_range clamped Hc) as (z & Ez & Hz).
  split; [exact Hc |]. split; [reflexivity |].
  split; [exists z; split; [exact Ez | exact Hz] |].
  split; [rewrite Ez; apply tenths_bounds, Hz |].
  split; [apply round_tenths_near |].
  split; [apply round_subscore, milkYieldScore_range |].
  split; [apply round_subscore, strengthScore_range |].
  split; [apply round_subscore, careRequirementScore_range |].
  split; [apply round_subscore, roiScore_range |].
  apply round_subscore. unfold climateMatchScore. lra.
Qed.

Lemma scoredBreeds_bounds_witness :
  0 <= ScoredBreed.overallScore
         (scoreBreed Examples.scenarioA_input Examples.scenarioA_breed) <= 10 /\
  is_subscore
    (Scores.milkYieldScore
       (ScoredBreed.scores
          (scoreBreed Examples.scenarioA_input Examples.scenarioA_breed))).
Proof.
  assert (Hin : scoreBreed Examples.scenarioA_input Examples.scenarioA_breed
                ∈ scoredBreeds [Examples.scenarioA_breed] Examples.scenarioA_input).
  { vm_compute. constructor. }
  destruct (scoredBreeds_bounds _ _ _ Hin) as (_ & _ & _ & H & _ & M & _).
  split; [exact H | exact M].
Defined.

(** ** Return on investment *)

Lemma estimatedProfit_eq (b : Breed.t) :
  estimatedProfit b
  = Breed.milkYield b * 30 * 55
    - match Breed.maintenanceCost b with
      | Low => 3000
      | Medium => 5000
      | High => 8000
      end.
Proof. reflexivity. Qed.

(** C9, as stated, fails: a breed with milk yield 10, low maintenance cost
    and market price 70000 passes the filter for a budget of 80000, its
    annualised return (13500 * 12 / 70000) * 100 is 1620/7, and the roi
    reported for it is the integer 231. *)
Lemma reported_roi_not_exact :
  Examples.costly_scored
    ∈ scoredBreeds [Examples.costly_breed] Examples.larger_budget_input /\
  0 < Breed.marketPrice Examples.costly_breed /\
  estimatedProfit Examples.costly_breed * 12
    / Breed.marketPrice Examples.costly_breed * 100 == 1620 # 7 /\
  ScoredBreed.roi Examples.costly_scored == 231 /\
  ~ ScoredBreed.roi Examples.costly_scored
    == estimatedProfit Examples.costly_breed * 12
       / Breed.marketPrice Examples.costly_breed * 100.
Proof.
  split; [vm_compute; constructor |].
  split; [reflexivity |].
  split; [reflexivity |].
  split; [reflexivity | discriminate].
Qed.

(** C9 (amended): the roi reported for a scored breed is [Math.round] of the
    annualised return (estimatedProfit * 12 / marketPrice) * 100 when the
    market price is positive, and 0 otherwise, so it is an integer within
    one half of that return; estimatedProfit is milkYield * 30 * 55 minus
    3000, 5000 or 8000 for a Low, Medium or High maintenance cost.  The
    roiScore that enters the weighted overall score is a different quantity,
    normalize(estimatedProfit, -5000, 20000) * 10, displayed rounded. *)
Theorem reported_roi_spec (catalog : list Breed.t) (input : Input.t)
    (sb : ScoredBreed.t) :
  sb ∈ scoredBreeds catalog input ->
  let b := ScoredBreed.breed sb in
  let monthlyIncome := Breed.milkYield b * 30 * 55 in
  let monthlyCost :=
    match Breed.maintenanceCost b with
    | Low => 3000 | Medium => 5000 | High => 8000
    end in
  let profit := monthlyIncome - monthlyCost in
  let annualised := profit * 12 / Breed.marketPrice b * 100 in
  (0 < Breed.marketPrice b ->
     ScoredBreed.roi sb = JS.Math_round annualised /\
     Qabs (ScoredBreed.roi sb - annualised) <= 1 # 2) /\
  (Breed.marketPrice b <= 0 -> ScoredBreed.roi sb = 0) /\
  (exists z : Z, ScoredBreed.roi sb = inject_Z z) /\
  roiScore b = normalize profit (-5000) 20000 * 10 /\
  Scores.roiScore (ScoredBreed.scores sb) = JS.Math_round (roiScore b) /\
  overallScore input b
  = milkYieldScore b * Weights.milk (weights (Input.goal input)) +
    strengthScore b * Weights.strength (weights (Input.goal input)) +
    careRequirementScore b * Weights.care (weights (Input.goal input)) +
    roiScore b * Weights.roi (weights (Input.goal input)) +
    climateMatchScore * Weights.climate (weights (Input.goal input)).
Proof.
  intros Hin. apply elem_of_scoredBreeds in Hin. destruct Hin as (b0 & -> & _).
  cbv zeta. simpl ScoredBreed.breed. simpl ScoredBreed.roi.
  simpl ScoredBreed.scores. simpl Scores.roiScore.
  assert (Hroi : 0 < Breed.marketPrice b0 ->
            roi b0 = estimatedProfit b0 * 12 / Breed.marketPrice b0 * 100).
  { intros Hp. unfold roi, initialInvestment, netAnnualProfit.
    apply gt_true in Hp. rewrite Hp. reflexivity. }
  split.
  - intros Hp. rewrite (Hroi Hp), estimatedProfit_eq.
    split; [reflexivity |].
    pose proof (Math_round_near
      ((Breed.milkYield b0 * 30 * 55
        - match Breed.maintenanceCost b0 with
          | Low => 3000 | Medium => 5000 | High => 8000
          end) * 12 / Breed.marketPrice b0 * 100)) as [Hlo Hhi].
    apply (proj2 (Qabs_Qle_condition _ _)). split; lra.
  - split.
    + intros Hp. unfold roi, initialInvestment.
      apply gt_false in Hp. rewrite Hp. reflexivity.
    + split; [eexists; reflexivity |].
      split; [reflexivity |]. split; reflexivity.
Qed.

Lemma reported_roi_spec_witness :
  ScoredBreed.roi (scoreBreed Examples.larger_budget_input Examples.costly_breed)
  = JS.Math_round ((10 * 30 * 55 - 3000) * 12 / 70000 * 100).
Proof.
  assert (Hin : scoreBreed Examples.larger_budget_input Examples.costly_breed
                ∈ scoredBreeds [Examples.costly_breed]
                    Examples.larger_budget_input).
  { vm_compute. constructor. }
  destruct (reported_roi_spec _ _ _ Hin) as (H & _).
  apply H. reflexivity.
Defined.

(** ** The ranker *)

Section SortStable.
Context {A : Type} (compareFn : A -> A -> JS.number) (P : A -> bool).
Hypothesis same_class :
  forall a b, P a = true -> P b = true -> JS.gt (compareFn a b) 0 = false.

Lemma filter_sort_insert (a : A) (l : list A) :
  List.filter P (sort_insert compareFn a l) = List.filter P (a :: l).
Proof using same_class.
  induction l as [| b l IH]; [reflexivity |].
  simpl. destruct (JS.gt (compareFn a b) 0) eqn:E; [| reflexivity].
  simpl. rewrite IH. simpl.
  destruct (P a) eqn:Pa, (P b) eqn:Pb; try reflexivity.
  rewrite (same_class a b Pa Pb) in E. discriminate.
Qed.

Lemma filter_Array_sort (l : list A) :
  List.filter P (Array_sort compareFn l) = List.filter P l.
Proof using same_class.
  induction l as [| a l IH]; [reflexivity |].
  simpl Array_sort. rewrite filter_sort_insert. simpl. rewrite IH.
  reflexivity.
Qed.
End SortStable.

Section SortPermutation.
Context {A : Type} (compareFn : A -> A -> JS.number).

Lemma sort_insert_Permutation (a : A) (l : list A) :
  sort_insert compareFn a l ≡ₚ a :: l.
Proof.
  induction l as [| b l IH]; [reflexivity |].
  simpl. destruct (JS.gt (compareFn a b) 0); [| reflexivity].
  rewrite IH. apply Permutation_swap.
Qed.

Lemma Array_sort_Permutation (l : list A) : Array_sort compareFn l ≡ₚ l.
Proof.
  induction l as [| a l IH]; [reflexivity |].
  simpl. rewrite sort_insert_Permutation, IH. reflexivity.
Qed.
End SortPermutation.

Lemma tiedAt_same_class (s : Q) (a b : ScoredBreed.t) :
  tiedAt s a = true -> tiedAt s b = true -> JS.gt (byScoreDesc a b) 0 = false.
Proof.
  unfold tiedAt, JS.strict_eq, byScoreDesc. rewrite !Qeq_bool_iff, gt_false.
  intros Ha Hb. lra.
Qed.

Lemma scoreDescending_trans (a b c : ScoredBreed.t) :
  scoreDescending a b -> scoreDescending b c -> scoreDescending a c.
Proof. unfold scoreDescending. intros H1 H2. lra. Qed.

Lemma sort_insert_sorted (a : ScoredBreed.t) (l : list ScoredBreed.t) :
  StronglySorted scoreDescending l ->
  StronglySorted scoreDescending (sort_insert byScoreDesc a l).
Proof.
  induction 1 as [| b l Hs IH Hb]; simpl.
  - repeat constructor.
  - destruct (JS.gt (byScoreDesc a b) 0) eqn:E.
    + apply gt_true in E. unfold byScoreDesc in E.
      constructor; [exact IH |].
      rewrite (sort_insert_Permutation byScoreDesc a l).
      constructor; [unfold scoreDescending; lra | exact Hb].
    + apply gt_false in E. unfold byScoreDesc in E.
      assert (Hab : scoreDescending a b) by (unfold scoreDescending; lra).
      constructor; [constructor; assumption |].
      constructor; [exact Hab |].
      eapply Forall_impl; [exact Hb |].
      intros c Hc. eapply scoreDescending_trans; eassumption.
Qed.

Lemma Array_sort_sorted (l : list ScoredBreed.t) :
  StronglySorted scoreDescending (Array_sort byScoreDesc l).
Proof.
  induction l as [| a l IH]; simpl; [constructor |].
  apply sort_insert_sorted, IH.
Qed.

Lemma filter_take_prefix {A : Type} (P : A -> bool) (n : nat) (l : list A) :
  List.filter P (take n l) `prefix_of` List.filter P l.
Proof.
  exists (List.filter P (drop n l)).
  rewrite <- List.filter_app, take_drop. reflexivity.
Qed.

Lemma prefix_is_sublist {A : Type} (l1 l2 : list A) :
  l1 `prefix_of` l2 -> l1 `sublist_of` l2.
Proof. intros [k ->]. apply sublist_inserts_r. reflexivity. Qed.

Lemma map_sublist_of {A B : Type} (f : A -> B) (l1 l2 : list A) :
  l1 `sublist_of` l2 -> List.map f l1 `sublist_of` List.map f l2.
Proof.
  induction 1 as [| x l1 l2 _ IH | x l1 l2 _ IH]; simpl.
  - constructor.
  - apply sublist_skip, IH.
  - apply sublist_cons, IH.
Qed.

Lemma breeds_of_scoredBreeds (catalog : list Breed.t) (input : Input.t) :
  List.map ScoredBreed.breed (scoredBreeds catalog input)
  = filteredBreeds catalog input.
Proof.
  unfold scoredBreeds. rewrite List.map_map. simpl. apply List.map_id.
Qed.

(** C4: the ranker's output is sorted by non-increasing overall score, has
    at most 3 entries and no more than it was given (so no more than the
    filtered set), consists of input entries, none of the entries left out
    scores higher than a returned one, and entries of equal score keep
    their input order: those returned are the first of their score class,
    so in the pipeline the breeds returned with one score stand in catalog
    order. *)
Theorem rank_spec (catalog : list Breed.t) (input : Input.t)
    (scored : list ScoredBreed.t) :
  StronglySorted scoreDescending (rank scored) /\
  (length (rank scored) <= 3)%nat /\
  (length (rank scored) <= length scored)%nat /\
  (length (topBreeds catalog input)
   <= length (filteredBreeds catalog input))%nat /\
  (exists rest,
     rank scored ++ rest ≡ₚ scored /\
     forall x y, x ∈ rank scored -> y ∈ rest -> scoreDescending x y) /\
  (forall s,
     List.filter (tiedAt s) (rank scored)
       `prefix_of` List.filter (tiedAt s) scored) /\
  (forall s,
     List.map ScoredBreed.breed
       (List.filter (tiedAt s) (topBreeds catalog input))
       `sublist_of` catalog).
Proof.
  pose proof (Array_sort_sorted scored) as Hs.
  rewrite <- (take_drop 3 (Array_sort byScoreDesc scored)) in Hs.
  apply StronglySorted_app in Hs. destruct Hs as (Hcross & Htake & _).
  assert (Hlen : forall l : list ScoredBreed.t,
             (length (rank l) <= length l)%nat).
  { intros l. unfold rank. rewrite length_take.
    rewrite (Permutation_length (Array_sort_Permutation byScoreDesc l)). lia. }
  assert (Hstable : forall (l : list ScoredBreed.t) s,
             List.filter (tiedAt s) (rank l)
               `prefix_of` List.filter (tiedAt s) l).
  { intros l s. unfold rank.
    rewrite <- (filter_Array_sort byScoreDesc (tiedAt s)
                  (tiedAt_same_class s) l).
    apply filter_take_prefix. }
  split; [exact Htake |].
  split; [unfold rank; rewrite length_take; lia |].
  split; [apply Hlen |].
  split.
  { unfold topBreeds. etransitivity; [apply Hlen |].
    unfold scoredBreeds. rewrite length_map. reflexivity. }
  split.
  { exists (drop 3 (Array_sort byScoreDesc scored)). split.
    - unfold rank. rewrite take_drop. apply Array_sort_Permutation.
    - intros x y Hx Hy. apply Hcross; assumption. }
  split; [apply Hstable |].
  intros s. unfold topBreeds.
  transitivity (List.map ScoredBreed.breed (scoredBreeds catalog input)).
  - apply map_sublist_of.
    transitivity (List.filter (tiedAt s) (scoredBreeds catalog input)).
    + apply prefix_is_sublist, Hstable.
    + apply filter_sublist_of.
  - rewrite breeds_of_scoredBreeds. apply filter_sublist_of.
Qed.

(** Three breeds of one score and a better fourth: the best comes first and
    the tied ones follow in their input order, the last of them cut off. *)
Example rank_ties :
  rank [ {| ScoredBreed.breed := Examples.scenarioA_breed;
            ScoredBreed.overallScore := 7.3;
            ScoredBreed.scores := Examples.no_scores; ScoredBreed.roi := 1 |};
         {| ScoredBreed.breed := Examples.scenarioA_breed;
            ScoredBreed.overallScore := 7.3;
            ScoredBreed.scores := Examples.no_scores; ScoredBreed.roi := 2 |};
         {| ScoredBreed.breed := Examples.scenarioA_breed;
            ScoredBreed.overallScore := 7.3;
            ScoredBreed.scores := Examples.no_scores; ScoredBreed.roi := 3 |};
         {| ScoredBreed.breed := Examples.scenarioA_breed;
            ScoredBreed.overallScore := 8.1;
            ScoredBreed.scores := Examples.no_scores; ScoredBreed.roi := 4 |} ]
  = [ {| ScoredBreed.breed := Examples.scenarioA_breed;
         ScoredBreed.overallScore := 8.1;
         ScoredBreed.scores := Examples.no_scores; ScoredBreed.roi := 4 |};
      {| ScoredBreed.breed := Examples.scenarioA_breed;
         ScoredBreed.overallScore := 7.3;
         ScoredBreed.scores := Examples.no_scores; ScoredBreed.roi := 1 |};
      {| ScoredBreed.breed := Examples.scenarioA_breed;
         ScoredBreed.overallScore := 7.3;
         ScoredBreed.scores := Examples.no_scores; ScoredBreed.roi := 2 |} ].
Proof. reflexivity. Qed.

(** ** The narrative merge *)

Lemma combine_nothing (recs : list Recommended.t) :
  omap id (imap (combineOne []) recs) = [].
Proof.
  induction recs as [| rec recs IH]; [reflexivity |].
  rewrite imap_cons. simpl.
  rewrite (imap_ext _ (combineOne [])); [exact IH |].
  intros i x _. reflexivity.
Qed.

(** Mapping by index and dropping the [null]s is the position-wise merge of
    the two arrays, cut at the shorter one. *)
Lemma combine_zip (top : list ScoredBreed.t) (recs : list Recommended.t) :
  omap id (imap (combineOne top) recs) = zip_with mergeEntry recs top.
Proof.
  revert top. induction recs as [| rec recs IH]; intros top; [reflexivity |].
  rewrite imap_cons. destruct top as [| o top].
  - simpl. rewrite (imap_ext _ (combineOne [])).
    + apply combine_nothing.
    + intros i x _. reflexivity.
  - simpl. f_equal.
    rewrite (imap_ext _ (combineOne top)); [apply IH |].
    intros i x _. reflexivity.
Qed.

Lemma topBreeds_eq (catalog : list Breed.t) (input : Input.t) :
  rank (List.map (scoreBreed input) (filteredBreeds catalog input))
  = topBreeds catalog input.
Proof. reflexivity. Qed.

Lemma filtered_nonempty (catalog : list Breed.t) (input : Input.t) :
  filteredBreeds catalog input <> [] ->
  Nat.eqb (length (filteredBreeds catalog input)) 0 = false.
Proof. destruct (filteredBreeds catalog input); [congruence | reflexivity]. Qed.

(** What one run of [recommendBreeds] does, by cases. *)
Lemma run_recommendBreeds (catalog : list Breed.t) (input : Input.t)
    (collaborator : Prompt.request -> Prompt.reply) :
  run collaborator (recommendBreeds catalog input)
  = if Nat.eqb (length (filteredBreeds catalog input)) 0
    then ([], Fulfilled {| Output.recommendedBreeds := [] |})
    else
      ([promptRequest input (topBreeds catalog input)],
       match collaborator (promptRequest input (topBreeds catalog input)) with
       | Prompt.Failed message => Rejected message
       | Prompt.Returned None =>
           Rejected "Failed to get recommendations from AI model."
       | Prompt.Returned (Some output) =>
           Fulfilled (combinedResult (topBreeds catalog input) output)
       end).
Proof.
  unfold recommendBreeds.
  destruct (Nat.eqb (length (filteredBreeds catalog input)) 0);
    [reflexivity |].
  rewrite topBreeds_eq. simpl.
  destruct (collaborator (promptRequest input (topBreeds catalog input)))
    as [message | [output |]]; reflexivity.
Qed.

(** C5: in every result [recommendBreeds] produces, entry [i] carries the
    overallScore, roi, careLevel and score breakdown of entry [i] of the
    locally ranked top list, whatever figures the collaborator sent; the
    breed name, pros and cons are those of entry [i] of the collaborator's
    output.  The result has an entry for each position both lists have. *)
Theorem merged_numbers_are_local (catalog : list Breed.t) (input : Input.t)
    (collaborator : Prompt.request -> Prompt.reply) (result : Output.t) :
  snd (run collaborator (recommendBreeds catalog input)) = Fulfilled result ->
  (length (Output.recommendedBreeds result)
   <= length (topBreeds catalog input))%nat /\
  forall (i : nat) (entry : Recommended.t),
    Output.recommendedBreeds result !! i = Some entry ->
    exists (local : ScoredBreed.t) (output : Output.t) (rec : Recommended.t),
      topBreeds catalog input !! i = Some local /\
      collaborator (promptRequest input (topBreeds catalog input))
        = Prompt.Returned (Some output) /\
      length (Output.recommendedBreeds result)
        = Nat.min (length (Output.recommendedBreeds output))
                  (length (topBreeds catalog input)) /\
      Output.recommendedBreeds output !! i = Some rec /\
      Recommended.overallScore entry = ScoredBreed.overallScore local /\
      Recommended.roi entry = ScoredBreed.roi local /\
      Recommended.careLevel entry
        = Tier_to_string (Breed.careLevel (ScoredBreed.breed local)) /\
      Recommended.scores entry = ScoredBreed.scores local /\
      Recommended.breedName entry = Recommended.breedName rec /\
      Recommended.pros entry = Recommended.pros rec /\
      Recommended.cons entry = Recommended.cons rec.
Proof.
  rewrite run_recommendBreeds.
  destruct (Nat.eqb (length (filteredBreeds catalog input)) 0).
  - simpl. intros [= <-]. simpl. split; [lia |].
    intros i entry H. rewrite lookup_nil in H. discriminate.
  - simpl.
    destruct (collaborator (promptRequest input (topBreeds catalog input)))
      as [message | [output |]]; try discriminate.
    intros [= <-]. unfold combinedResult. simpl. rewrite combine_zip.
    split; [rewrite length_zip_with; lia |].
    intros i entry H. apply lookup_zip_with_Some in H.
    destruct H as (rec & local & -> & Hrec & Hlocal).
    exists local, output, rec.
    split; [exact Hlocal |]. split; [reflexivity |].
    split; [apply length_zip_with |]. split; [exact Hrec |].
    repeat split.
Qed.

Lemma merged_numbers_are_local_witness :
  snd (run Examples.inventive_collaborator
         (recommendBreeds [Examples.scenarioA_breed] Examples.scenarioA_input))
    = Fulfilled Examples.inventive_result /\
  exists local : ScoredBreed.t,
    topBreeds [Examples.scenarioA_breed] Examples.scenarioA_input !! 0%nat
      = Some local /\
    ScoredBreed.overallScore local
      = ScoredBreed.overallScore
          (scoreBreed Examples.scenarioA_input Examples.scenarioA_breed).
Proof.
  assert (Hrun : snd (run Examples.inventive_collaborator
                        (recommendBreeds [Examples.scenarioA_breed]
                           Examples.scenarioA_input))
                 = Fulfilled Examples.inventive_result).
  { vm_compute. reflexivity. }
  split; [exact Hrun |].
  destruct (merged_numbers_are_local _ _ _ _ Hrun) as (_ & H).
  destruct (H 0%nat _ eq_refl) as (local & _ & _ & Hl & _ & _ & _ & Hs & _).
  exists local. split; [exact Hl |]. symmetry. exact Hs.
Defined.

(** C6, as stated, fails: in scenario A one breed passes the filter, the
    collaborator answers with an output of zero items, and [recommendBreeds]
    fulfils with an empty list instead of rejecting. *)
Lemma empty_reply_is_fulfilled :
  filteredBreeds [Examples.scenarioA_breed] Examples.scenarioA_input
    = [Examples.scenarioA_breed] /\
  Examples.silent_collaborator
    (promptRequest Examples.scenarioA_input
       (topBreeds [Examples.scenarioA_breed] Examples.scenarioA_input))
    = Prompt.Returned (Some {| Output.recommendedBreeds := [] |}) /\
  snd (run Examples.silent_collaborator
         (recommendBreeds [Examples.scenarioA_breed] Examples.scenarioA_input))
    = Fulfilled {| Output.recommendedBreeds := [] |}.
Proof. split; [| split]; vm_compute; reflexivity. Qed.

(** C6 (amended): when at least one breed passed the filter,
    [recommendBreeds] calls the collaborator once and rejects exactly when
    the call throws or returns no output object; when the collaborator
    returns an output, the request is fulfilled with the merge, and an
    output of zero items gives an empty recommendation list, not an
    error. *)
Theorem collaborator_failure_policy (catalog : list Breed.t)
    (input : Input.t) (collaborator : Prompt.request -> Prompt.reply) :
  filteredBreeds catalog input <> [] ->
  fst (run collaborator (recommendBreeds catalog input))
    = [promptRequest input (topBreeds catalog input)] /\
  (forall message,
     collaborator (promptRequest input (topBreeds catalog input))
       = Prompt.Failed message ->
     snd (run collaborator (recommendBreeds catalog input))
       = Rejected message) /\
  (collaborator (promptRequest input (topBreeds catalog input))
     = Prompt.Returned None ->
   snd (run collaborator (recommendBreeds catalog input))
     = Rejected "Failed to get recommendations from AI model.") /\
  (forall output,
     collaborator (promptRequest input (topBreeds catalog input))
       = Prompt.Returned (Some output) ->
     snd (run collaborator (recommendBreeds catalog input))
       = Fulfilled (combinedResult (topBreeds catalog input) output) /\
     (Output.recommendedBreeds output = [] ->
      snd (run collaborator (recommendBreeds catalog input))
        = Fulfilled {| Output.recommendedBreeds := [] |})).
Proof.
  intros Hne. rewrite run_recommendBreeds, (filtered_nonempty _ _ Hne).
  simpl. split; [reflexivity |].
  split; [intros message -> ; reflexivity |].
  split; [intros -> ; reflexivity |].
  intros output ->. split; [reflexivity |].
  intros Hnil. unfold combinedResult. rewrite Hnil. reflexivity.
Qed.

Lemma collaborator_failure_policy_witness :
  fst (run Examples.silent_collaborator
         (recommendBreeds [Examples.scenarioA_breed] Examples.scenarioA_input))
  = [promptRequest Examples.scenarioA_input
       (topBreeds [Examples.scenarioA_breed] Examples.scenarioA_input)].
Proof.
  apply (collaborator_failure_policy [Examples.scenarioA_breed]
           Examples.scenarioA_input Examples.silent_collaborator).
  vm_compute. discriminate.
Defined.

(** ** The empty result *)

(** C7: when no catalog breed satisfies the hard constraints,
    [recommendBreeds] returns the empty recommendation list at once: the
    promise is fulfilled, not rejected, and no request is made to the
    collaborator, whatever the collaborator would have answered. *)
Theorem empty_filter_returns_early (catalog : list Breed.t) (input : Input.t) :
  (forall b, b ∈ catalog -> ~ satisfiesConstraints input b) ->
  filteredBreeds catalog input = [] /\
  recommendBreeds catalog input
    = Return {| Output.recommendedBreeds := [] |} /\
  forall collaborator : Prompt.request -> Prompt.reply,
    run collaborator (recommendBreeds catalog input)
    = ([], Fulfilled {| Output.recommendedBreeds := [] |}).
Proof.
  intros Hnone.
  assert (Hnil : filteredBreeds catalog input = []).
  { destruct (filteredBreeds catalog input) as [| b l] eqn:E; [reflexivity |].
    assert (Hb : b ∈ filteredBreeds catalog input) by (rewrite E; left).
    apply elem_of_filteredBreeds in Hb. destruct Hb as [Hin Hkeep].
    apply keepBreed_spec in Hkeep. destruct (Hnone b Hin Hkeep). }
  split; [exact Hnil |].
  assert (Hret : recommendBreeds catalog input
                 = Return {| Output.recommendedBreeds := [] |}).
  { unfold recommendBreeds. rewrite Hnil. reflexivity. }
  split; [exact Hret |].
  intros collaborator. rewrite Hret. reflexivity.
Qed.

Lemma empty_filter_returns_early_witness :
  recommendBreeds [Examples.scenarioA_breed] Examples.scenarioB_input
  = Return {| Output.recommendedBreeds := [] |}.
Proof.
  apply (empty_filter_returns_early [Examples.scenarioA_breed]
           Examples.scenarioB_input).
  intros b Hb (Hprice & _).
  apply list_elem_of_singleton in Hb. subst b.
  apply Hprice. reflexivity.
Defined.

(** ** Independence from the land size *)

(** C10: two requests with positive land sizes that agree on goal, budget,
    regional climate and language get the same filtered set, the same
    scored breed for every breed (sub-scores, overall score, roi), the same
    ranked top list, the same request to the collaborator and, against any
    collaborator, the same outcome. *)
Theorem landSize_irrelevant (catalog : list Breed.t) (i1 i2 : Input.t) :
  0 < Input.landSize i1 ->
  0 < Input.landSize i2 ->
  Input.goal i1 = Input.goal i2 ->
  Input.budget i1 = Input.budget i2 ->
  Input.regionalClimate i1 = Input.regionalClimate i2 ->
  Input.language i1 = Input.language i2 ->
  filteredBreeds catalog i1 = filteredBreeds catalog i2 /\
  (forall b : Breed.t, scoreBreed i1 b = scoreBreed i2 b) /\
  scoredBreeds catalog i1 = scoredBreeds catalog i2 /\
  topBreeds catalog i1 = topBreeds catalog i2 /\
  promptRequest i1 (topBreeds catalog i1)
    = promptRequest i2 (topBreeds catalog i2) /\
  recommendBreeds catalog i1 = recommendBreeds catalog i2 /\
  forall collaborator : Prompt.request -> Prompt.reply,
    run collaborator (recommendBreeds catalog i1)
    = run collaborator (recommendBreeds catalog i2).
Proof.
  destruct i1 as [g1 b1 l1 c1 n1], i2 as [g2 b2 l2 c2 n2]. simpl.
  intros _ _ -> -> -> ->.
  repeat split; reflexivity.
Qed.

Lemma landSize_irrelevant_witness :
  topBreeds [Examples.scenarioA_breed] Examples.scenarioA_input
  = topBreeds [Examples.scenarioA_breed] Examples.larger_farm_input.
Proof.
  assert (H1 : 0 < Input.landSize Examples.scenarioA_input) by reflexivity.
  assert (H2 : 0 < Input.landSize Examples.larger_farm_input) by reflexivity.
  destruct (landSize_irrelevant [Examples.scenarioA_breed]
              Examples.scenarioA_input Examples.larger_farm_input
              H1 H2 eq_refl eq_refl eq_refl eq_refl)
    as (_ & _ & _ & H & _).
  exact H.
Defined.

(** ** Scenario A of the specification, evaluated *)

Example scenarioA_scored :
  filteredBreeds [Examples.scenarioA_breed] Examples.scenarioA_input
    = [Examples.scenarioA_breed] /\
  milkYieldScore Examples.scenarioA_breed == 45 # 7 /\
  Scores.milkYieldScore
    (ScoredBreed.scores
       (scoreBreed Examples.scenarioA_input Examples.scenarioA_breed)) == 6 /\
  Scores.climateMatchScore
    (ScoredBreed.scores
       (scoreBreed Examples.scenarioA_input Examples.scenarioA_breed)) == 10 /\
  ScoredBreed.overallScore
    (scoreBreed Examples.scenarioA_input Examples.scenarioA_breed) == 7.3.
Proof. repeat split; vm_compute; reflexivity. Qed.

(** * Further properties of the engine *)

(** ** The scorer: range, monotonicity, independence from the price *)

Lemma Math_round_monotone (x y : Q) :
  x <= y -> JS.Math_round x <= JS.Math_round y.
Proof.
  intros H. unfold JS.Math_round. rewrite <- Zle_Qle.
  apply Qfloor_resp_le. lra.
Qed.

Lemma clamp10_monotone (x y : Q) :
  x <= y ->
  JS.Math_min 10 (JS.Math_max 0 x) <= JS.Math_min 10 (JS.Math_max 0 y).
Proof.
  intros H.
  destruct (clamp_cases' 0 10 x) as [[Hx Ex] | [[Hx Ex] | [Hx Ex]]]; try lra;
  destruct (clamp_cases' 0 10 y) as [[Hy Ey] | [[Hy Ey] | [Hy Ey]]]; try lra;
  rewrite Ex, Ey; lra.
Qed.

Lemma careRequirementScore_at_most_9 (b : Breed.t) :
  0 <= careRequirementScore b <= 9.
Proof.
  unfold careRequirementScore. destruct (Breed.careLevel b); simpl; lra.
Qed.

Lemma strengthScore_at_least_1 (b : Breed.t) : 1 <= strengthScore b <= 10.
Proof. unfold strengthScore. destruct (Breed.strength b); simpl; lra. Qed.

Lemma overallScore_window (input : Input.t) (b : Breed.t) :
  1 <= overallScore input b <= scoreCeiling (Input.goal input).
Proof.
  pose proof (milkYieldScore_range b) as Hm.
  pose proof (roiScore_range b) as Hr.
  pose proof (careRequirementScore_at_most_9 b) as Hc.
  pose proof (strengthScore_at_least_1 b) as Hs.
  unfold overallScore, climateMatchScore.
  destruct (Input.goal input); simpl; lra.
Qed.

Lemma scoreCeiling_below_10 (g : Goal) : scoreCeiling g <= 99 # 10.
Proof. destruct g; simpl; lra. Qed.

Lemma overallScore_unclamped (input : Input.t) (b : Breed.t) :
  JS.Math_min 10 (JS.Math_max 0 (overallScore input b))
    == overallScore input b.
Proof.
  pose proof (overallScore_window input b) as Hw.
  pose proof (scoreCeiling_below_10 (Input.goal input)) as Hc.
  destruct (clamp_cases' 0 10 (overallScore input b))
    as [[H E] | [[H E] | [H E]]]; try lra; exact E.
Qed.

Lemma reported_overallScore_window (input : Input.t) (b : Breed.t) :
  1 <= ScoredBreed.overallScore (scoreBreed input b) <= 99 # 10.
Proof.
  pose proof (overallScore_window input b) as Hw.
  pose proof (scoreCeiling_below_10 (Input.goal input)) as Hc.
  pose proof (overallScore_unclamped input b) as Hclamp.
  simpl.
  destruct (Math_round_between 10 99
              (JS.Math_min 10 (JS.Math_max 0 (overallScore input b)) * 10))
    as (z & E & Hz).
  { rewrite Hclamp. change (inject_Z 10) with 10.
    change (inject_Z 99) with 99. lra. }
  rewrite E. destruct Hz as [H10 H99]. rewrite Zle_Qle in H10, H99.
  change (inject_Z 10) with 10 in H10. change (inject_Z 99) with 99 in H99.
  split.
  - apply Qle_shift_div_l; lra.
  - apply Qle_shift_div_r; lra.
Qed.

(** X1: the weighted score of any breed lies between 1 and the ceiling of
    its goal (9.9, 9.8, 9.9, 8.6), so the clamp to [0, 10] never changes it
    and no reported overall score is below 1 or above 9.9; a breed with
    saturated sub-scores reaches the ceiling of every goal. *)
Theorem overallScore_never_clamped (input : Input.t) (b : Breed.t) :
  1 <= overallScore input b <= scoreCeiling (Input.goal input) /\
  JS.Math_min 10 (JS.Math_max 0 (overallScore input b))
    == overallScore input b /\
  1 <= ScoredBreed.overallScore (scoreBreed input b) <= 99 # 10 /\
  overallScore input
    {| Breed.breedName := Breed.breedName b;
       Breed.marketPrice := Breed.marketPrice b;
       Breed.milkYield := 20;
       Breed.strength := High;
       Breed.maintenanceCost := Low;
       Breed.careLevel := Low;
       Breed.climateSuitability := Breed.climateSuitability b |}
    == scoreCeiling (Input.goal input).
Proof.
  split; [apply overallScore_window |].
  split; [apply overallScore_unclamped |].
  split; [apply reported_overallScore_window |].
  unfold overallScore.
  destruct (Input.goal input); vm_compute; reflexivity.
Qed.

Lemma getScore_monotone (t1 t2 : Tier) :
  (Tier_rank t1 <= Tier_rank t2)%nat -> getScore t1 <= getScore t2.
Proof. destruct t1, t2; simpl; intros H; try lia; lra. Qed.

Lemma maintenanceMapping_monotone (t1 t2 : Tier) :
  (Tier_rank t1 <= Tier_rank t2)%nat ->
  maintenanceMapping t1 <= maintenanceMapping t2.
Proof. destruct t1, t2; simpl; intros H; try lia; lra. Qed.

Lemma weights_nonnegative (g : Goal) :
  0 <= Weights.milk (weights g) /\ 0 <= Weights.roi (weights g) /\
  0 <= Weights.care (weights g) /\ 0 <= Weights.climate (weights g) /\
  0 <= Weights.strength (weights g).
Proof. destruct g; simpl; repeat split; lra. Qed.

Lemma overallScore_noWorse (input : Input.t) (b1 b2 : Breed.t) :
  noWorse b1 b2 -> overallScore input b1 <= overallScore input b2.
Proof.
  intros (Hmilk & Hstr & Hcare & Hcost).
  assert (Hm : milkYieldScore b1 <= milkYieldScore b2).
  { unfold milkYieldScore.
    pose proof (normalize_monotone (Breed.milkYield b1) (Breed.milkYield b2)
                  1 15 ltac:(reflexivity) Hmilk). lra. }
  assert (Hs : strengthScore b1 <= strengthScore b2).
  { apply getScore_monotone, Hstr. }
  assert (Hc : careRequirementScore b1 <= careRequirementScore b2).
  { unfold careRequirementScore.
    pose proof (getScore_monotone _ _ Hcare). lra. }
  assert (Hr : roiScore b1 <= roiScore b2).
  { unfold roiScore.
    assert (Hp : estimatedProfit b1 <= estimatedProfit b2).
    { unfold estimatedProfit, monthlyIncome, monthlyCost.
      pose proof (maintenanceMapping_monotone _ _ Hcost). lra. }
    pose proof (normalize_monotone _ _ (-5000) 20000 ltac:(reflexivity) Hp).
    lra. }
  destruct (weights_nonnegative (Input.goal input))
    as (W1 & W2 & W3 & W4 & W5).
  unfold overallScore.
  repeat apply Qplus_le_compat; try apply Qle_refl;
    apply Qmult_le_compat_r; assumption.
Qed.

(** X2: for every goal, a breed that yields no less milk, is no weaker and
    needs no more care and no more upkeep than another is given an overall
    score that is no lower, before and after clamping and rounding. *)
Theorem overallScore_monotone (input : Input.t) (b1 b2 : Breed.t) :
  noWorse b1 b2 ->
  overallScore input b1 <= overallScore input b2 /\
  ScoredBreed.overallScore (scoreBreed input b1)
    <= ScoredBreed.overallScore (scoreBreed input b2).
Proof.
  intros H. pose proof (overallScore_noWorse input b1 b2 H) as Hraw.
  split; [exact Hraw |]. simpl.
  apply ratio_le; [reflexivity |].
  apply Math_round_monotone.
  pose proof (clamp10_monotone _ _ Hraw). lra.
Qed.

Lemma overallScore_monotone_witness :
  ScoredBreed.overallScore
    (scoreBreed Examples.scenarioA_input Examples.scenarioA_breed)
  <= ScoredBreed.overallScore
       (scoreBreed Examples.scenarioA_input MoreExamples.better_breed).
Proof.
  apply (overallScore_monotone Examples.scenarioA_input
           Examples.scenarioA_breed MoreExamples.better_breed).
  unfold noWorse. simpl. split; [discriminate |]. lia.
Defined.

(** X3: the overall score and the five sub-scores of a breed depend only on
    its milk yield, strength, maintenance cost and care level: name, market
    price and climate list have no influence on them (the price enters the
    roi percentage only). *)
Theorem score_ignores_price (input : Input.t) (b1 b2 : Breed.t) :
  sameTraits b1 b2 ->
  ScoredBreed.overallScore (scoreBreed input b1)
    = ScoredBreed.overallScore (scoreBreed input b2) /\
  ScoredBreed.scores (scoreBreed input b1)
    = ScoredBreed.scores (scoreBreed input b2) /\
  byScoreDesc (scoreBreed input b1) (scoreBreed input b2) == 0.
Proof.
  destruct b1 as [n1 p1 m1 s1 c1 k1 l1], b2 as [n2 p2 m2 s2 c2 k2 l2].
  unfold sameTraits. simpl. intros (-> & -> & -> & ->).
  split; [reflexivity |]. split; [reflexivity |].
  unfold byScoreDesc. apply Qplus_opp_r.
Qed.

Lemma score_ignores_price_witness :
  ScoredBreed.overallScore
    (scoreBreed Examples.scenarioA_input Examples.scenarioA_breed)
  = ScoredBreed.overallScore
      (scoreBreed Examples.scenarioA_input Examples.costly_breed).
Proof.
  apply (score_ignores_price Examples.scenarioA_input
           Examples.scenarioA_breed Examples.costly_breed).
  unfold sameTraits. simpl. repeat split; reflexivity.
Defined.

(** X4: the reported roi has the sign of the estimated monthly profit: for
    a positive market price it is not negative when the milk income covers
    the upkeep, and not positive when it does not. *)
Theorem roi_sign (input : Input.t) (b : Breed.t) :
  0 < Breed.marketPrice b ->
  (0 <= estimatedProfit b -> 0 <= ScoredBreed.roi (scoreBreed input b)) /\
  (estimatedProfit b <= 0 -> ScoredBreed.roi (scoreBreed input b) <= 0).
Proof.
  intros Hp. simpl. unfold roi, initialInvestment, netAnnualProfit.
  pose proof Hp as Hgt. apply gt_true in Hgt. rewrite Hgt.
  assert (Hinv : 0 < / Breed.marketPrice b) by (apply Qinv_lt_0_compat, Hp).
  split; intros H.
  - apply (Qle_trans _ (JS.Math_round 0)); [vm_compute; discriminate |].
    apply Math_round_monotone.
    unfold Qdiv. apply Qmult_le_0_compat; [| lra].
    apply Qmult_le_0_compat; lra.
  - apply (Qle_trans _ (JS.Math_round 0)); [| vm_compute; discriminate].
    apply Math_round_monotone.
    unfold Qdiv.
    pose proof (Qmult_le_compat_r (estimatedProfit b * 12) 0
                  (/ Breed.marketPrice b) ltac:(lra) ltac:(lra)) as H1.
    lra.
Qed.

Lemma roi_sign_witness :
  0 <= ScoredBreed.roi
         (scoreBreed Examples.scenarioA_input Examples.scenarioA_breed).
Proof.
  destruct (roi_sign Examples.scenarioA_input Examples.scenarioA_breed)
    as [H _]; [reflexivity |].
  apply H. discriminate.
Defined.



(** ** The filter: relaxing a request *)

Lemma filter_sublist_impl {A : Type} (f g : A -> bool) (l : list A) :
  (forall x, f x = true -> g x = true) ->
  List.filter f l `sublist_of` List.filter g l.
Proof.
  intros Himp. induction l as [| x l IH]; simpl; [constructor |].
  destruct (f x) eqn:Ef.
  - rewrite (Himp x Ef). apply sublist_skip, IH.
  - destruct (g x); [apply sublist_cons |]; exact IH.
Qed.

(** X6: raising the budget, or leaving the low-maintenance goal for another
    one, never removes a breed: with the same regional climate, the breeds
    kept for the stricter request are a subsequence of those kept for the
    laxer one. *)
Theorem relaxed_request_keeps_breeds (catalog : list Breed.t)
    (strict lax : Input.t) :
  Input.budget strict <= Input.budget lax ->
  Input.regionalClimate strict = Input.regionalClimate lax ->
  (Input.goal lax = low_maintenance -> Input.goal strict = low_maintenance) ->
  filteredBreeds catalog strict `sublist_of` filteredBreeds catalog lax.
Proof.
  intros Hb Hc Hg. unfold filteredBreeds. apply filter_sublist_impl.
  intros b. rewrite !keepBreed_spec. unfold satisfiesConstraints.
  rewrite Hc. intros (Hprice & Hclimate & Hgoal).
  split; [lra |]. split; [exact Hclimate |].
  destruct Hgoal as [Hne | Hlow]; [left | right; exact Hlow].
  intros Hl. apply Hne, Hg, Hl.
Qed.

Lemma relaxed_request_keeps_breeds_witness :
  filteredBreeds [Examples.scenarioA_breed; Examples.costly_breed]
    MoreExamples.low_maintenance_input
  `sublist_of`
  filteredBreeds [Examples.scenarioA_breed; Examples.costly_breed]
    Examples.larger_budget_input.
Proof.
  apply relaxed_request_keeps_breeds.
  - discriminate.
  - reflexivity.
  - discriminate.
Defined.

(** ** What a fulfilled request contains *)

Lemma elem_of_rank (scored : list ScoredBreed.t) (x : ScoredBreed.t) :
  x ∈ rank scored -> x ∈ scored.
Proof.
  unfold rank. intros H.
  rewrite <- (Array_sort_Permutation byScoreDesc scored).
  eapply elem_of_sublist; [exact H | apply sublist_take].
Qed.

Lemma length_rank (scored : list ScoredBreed.t) :
  length (rank scored) = Nat.min 3 (length scored).
Proof.
  unfold rank. rewrite length_take.
  rewrite (Permutation_length (Array_sort_Permutation byScoreDesc scored)).
  reflexivity.
Qed.

Lemma topBreeds_origin (catalog : list Breed.t) (input : Input.t)
    (x : ScoredBreed.t) :
  x ∈ topBreeds catalog input ->
  x = scoreBreed input (ScoredBreed.breed x) /\
  ScoredBreed.breed x ∈ catalog /\
  satisfiesConstraints input (ScoredBreed.breed x).
Proof.
  intros H. apply elem_of_rank, elem_of_scoredBreeds in H.
  destruct H as (b & -> & Hb). simpl.
  apply elem_of_filteredBreeds in Hb. destruct Hb as [Hin Hkeep].
  split; [reflexivity |]. split; [exact Hin |].
  apply keepBreed_spec, Hkeep.
Qed.

Lemma topBreeds_nonempty (catalog : list Breed.t) (input : Input.t) :
  filteredBreeds catalog input <> [] -> topBreeds catalog input <> [].
Proof.
  intros Hne Htop. apply (f_equal length) in Htop.
  unfold topBreeds in Htop. rewrite length_rank in Htop.
  unfold scoredBreeds in Htop. rewrite length_map in Htop.
  destruct (filteredBreeds catalog input); [congruence | simpl in Htop; lia].
Qed.

Lemma length_topBreeds (catalog : list Breed.t) (input : Input.t) :
  filteredBreeds catalog input <> [] ->
  (1 <= length (topBreeds catalog input) <= 3)%nat.
Proof.
  intros Hne. unfold topBreeds. rewrite length_rank.
  unfold scoredBreeds. rewrite length_map.
  destruct (filteredBreeds catalog input) as [| b l]; [congruence |].
  simpl length. lia.
Qed.

(** The two ways a request is fulfilled. *)
Lemma fulfilled_cases (catalog : list Breed.t) (input : Input.t)
    (collaborator : Prompt.request -> Prompt.reply) (result : Output.t) :
  snd (run collaborator (recommendBreeds catalog input)) = Fulfilled result ->
  (filteredBreeds catalog input = [] /\
   Output.recommendedBreeds result = []) \/
  (filteredBreeds catalog input <> [] /\
   exists output,
     collaborator (promptRequest input (topBreeds catalog input))
       = Prompt.Returned (Some output) /\
     Output.recommendedBreeds result
       = zip_with mergeEntry (Output.recommendedBreeds output)
           (topBreeds catalog input)).
Proof.
  rewrite run_recommendBreeds.
  destruct (filteredBreeds catalog input) as [| b l] eqn:E; simpl.
  - intros [= <-]. left. split; reflexivity.
  - destruct (collaborator (promptRequest input (topBreeds catalog input)))
      as [message | [output |]]; try discriminate.
    intros [= <-]. right. split; [discriminate |].
    exists output. split; [reflexivity |].
    unfold combinedResult. simpl. apply combine_zip.
Qed.

Lemma zip_mergeEntry_sorted (recs : list Recommended.t)
    (top : list ScoredBreed.t) :
  StronglySorted scoreDescending top ->
  StronglySorted
    (fun e1 e2 => Recommended.overallScore e2 <= Recommended.overallScore e1)
    (zip_with mergeEntry recs top).
Proof.
  intros Hs. revert recs.
  induction Hs as [| x top Hs IH Hx]; intros recs.
  - destruct recs; constructor.
  - destruct recs as [| rec recs]; [constructor |]. simpl.
    constructor; [apply IH |].
    apply Forall_forall. intros e He.
    apply elem_of_lookup_zip_with in He.
    destruct He as (i & r & y & -> & _ & Hy). simpl.
    rewrite Forall_forall in Hx. apply Hx.
    eapply list_elem_of_lookup_2, Hy.
Qed.

(** X7: every fulfilled request lists at most 3 breeds, no more than passed
    the filter and no more than the collaborator described, best first: the
    overall scores of the entries never increase down the list, whatever
    order or scores the collaborator reported. *)
Theorem result_is_ranked (catalog : list Breed.t) (input : Input.t)
    (collaborator : Prompt.request -> Prompt.reply) (result : Output.t) :
  snd (run collaborator (recommendBreeds catalog input)) = Fulfilled result ->
  (length (Output.recommendedBreeds result) <= 3)%nat /\
  (length (Output.recommendedBreeds result)
   <= length (filteredBreeds catalog input))%nat /\
  StronglySorted
    (fun e1 e2 => Recommended.overallScore e2 <= Recommended.overallScore e1)
    (Output.recommendedBreeds result).
Proof.
  intros H. apply fulfilled_cases in H.
  destruct H as [[_ ->] | (_ & output & _ & ->)].
  - simpl. split; [lia |]. split; [lia | constructor].
  - rewrite length_zip_with. unfold topBreeds at 1 2.
    rewrite length_rank. unfold scoredBreeds. rewrite length_map.
    split; [lia |]. split; [lia |].
    apply zip_mergeEntry_sorted.
    unfold topBreeds, rank.
    pose proof (Array_sort_sorted (scoredBreeds catalog input)) as Hs.
    rewrite <- (take_drop 3 (Array_sort byScoreDesc _)) in Hs.
    apply StronglySorted_app in Hs. apply Hs.
Qed.

Lemma result_is_ranked_witness :
  (length (Output.recommendedBreeds Examples.inventive_result) <= 3)%nat.
Proof.
  apply (result_is_ranked [Examples.scenarioA_breed] Examples.scenarioA_input
           Examples.inventive_collaborator Examples.inventive_result).
  vm_compute. reflexivity.
Defined.

(** X8: a fulfilled request has an empty list exactly when no breed passed
    the filter or the collaborator's output held no item; in particular a
    request with matching breeds and a non-empty collaborator output is
    never answered with an empty list. *)
Theorem empty_result_causes (catalog : list Breed.t) (input : Input.t)
    (collaborator : Prompt.request -> Prompt.reply) (result : Output.t) :
  snd (run collaborator (recommendBreeds catalog input)) = Fulfilled result ->
  (Output.recommendedBreeds result = [] <->
   filteredBreeds catalog input = [] \/
   exists output,
     collaborator (promptRequest input (topBreeds catalog input))
       = Prompt.Returned (Some output) /\
     Output.recommendedBreeds output = []).
Proof.
  intros H. apply fulfilled_cases in H.
  destruct H as [[Hnil ->] | (Hne & output & Hreply & ->)].
  - split; [left; exact Hnil | reflexivity].
  - pose proof (topBreeds_nonempty catalog input Hne) as Htop.
    split.
    + intros Hz. right. exists output. split; [exact Hreply |].
      destruct (Output.recommendedBreeds output) as [| r rs];
        [reflexivity |].
      destruct (topBreeds catalog input); [congruence | discriminate].
    + intros [Hnil | (output' & Hreply' & Hnil)]; [contradiction |].
      rewrite Hreply in Hreply'. injection Hreply' as <-.
      rewrite Hnil. reflexivity.
Qed.

Lemma empty_result_causes_witness :
  Output.recommendedBreeds Examples.inventive_result = [] <->
  filteredBreeds [Examples.scenarioA_breed] Examples.scenarioA_input = [] \/
  exists output,
    Examples.inventive_collaborator
      (promptRequest Examples.scenarioA_input
         (topBreeds [Examples.scenarioA_breed] Examples.scenarioA_input))
      = Prompt.Returned (Some output) /\
    Output.recommendedBreeds output = [].
Proof.
  apply (empty_result_causes [Examples.scenarioA_breed]
           Examples.scenarioA_input Examples.inventive_collaborator
           Examples.inventive_result).
  vm_compute. reflexivity.
Defined.

(** X9: [recommendBreeds] makes at most one request to the collaborator,
    and a request names between 1 and 3 breeds, each a catalog breed that
    satisfies the farmer's hard constraints, sent with the overall score and
    roi computed for it, in the farmer's language. *)
Theorem request_contents (catalog : list Breed.t) (input : Input.t)
    (collaborator : Prompt.request -> Prompt.reply) :
  (length (fst (run collaborator (recommendBreeds catalog input))) <= 1)%nat /\
  forall req,
    req ∈ fst (run collaborator (recommendBreeds catalog input)) ->
    Prompt.language req = Input.language input /\
    (1 <= length (Prompt.breeds req) <= 3)%nat /\
    forall pb, pb ∈ Prompt.breeds req ->
      PromptBreed.raw pb ∈ catalog /\
      satisfiesConstraints input (PromptBreed.raw pb) /\
      PromptBreed.overallScore pb
        = ScoredBreed.overallScore (scoreBreed input (PromptBreed.raw pb)) /\
      PromptBreed.roi pb
        = ScoredBreed.roi (scoreBreed input (PromptBreed.raw pb)).
Proof.
  rewrite run_recommendBreeds.
  destruct (filteredBreeds catalog input) as [| b l] eqn:E; simpl.
  - split; [lia |]. intros req Hreq. inversion Hreq.
  - split; [lia |]. intros req Hreq.
    apply list_elem_of_singleton in Hreq. subst req. simpl.
    split; [reflexivity |].
    assert (Hne : filteredBreeds catalog input <> []) by (rewrite E; discriminate).
    split.
    + unfold breedsForPrompt. rewrite length_map.
      apply length_topBreeds, Hne.
    + intros pb Hpb. unfold breedsForPrompt in Hpb.
      apply list_elem_of_In, in_map_iff in Hpb.
      destruct Hpb as (x & <- & Hx). apply list_elem_of_In in Hx.
      apply topBreeds_origin in Hx. destruct Hx as (Ex & Hin & Hsat).
      simpl. split; [exact Hin |]. split; [exact Hsat |].
      rewrite Ex at 1 3. split; reflexivity.
Qed.

Lemma result_entry_origin (catalog : list Breed.t) (input : Input.t)
    (collaborator : Prompt.request -> Prompt.reply) (result : Output.t)
    (entry : Recommended.t) :
  snd (run collaborator (recommendBreeds catalog input)) = Fulfilled result ->
  entry ∈ Output.recommendedBreeds result ->
  exists (rec : Recommended.t) (b : Breed.t),
    b ∈ catalog /\ satisfiesConstraints input b /\
    entry = mergeEntry rec (scoreBreed input b).
Proof.
  intros H He. apply fulfilled_cases in H.
  destruct H as [[_ Hnil] | (_ & output & _ & Hzip)].
  - rewrite Hnil in He. inversion He.
  - rewrite Hzip in He. apply elem_of_lookup_zip_with in He.
    destruct He as (i & rec & x & -> & _ & Hx).
    apply list_elem_of_lookup_2, topBreeds_origin in Hx.
    destruct Hx as (Ex & Hin & Hsat).
    exists rec, (ScoredBreed.breed x).
    split; [exact Hin |]. split; [exact Hsat |]. rewrite <- Ex. reflexivity.
Qed.

(** X10: whatever the collaborator writes into its numeric and care-level
    fields, every entry of a fulfilled request is about a catalog breed that
    satisfies the hard constraints and is well formed: its care level is
    one of Low, Medium, High, its overall score lies in [1, 9.9], its five
    sub-scores are integers in [0, 10] and its roi is an integer. *)
Theorem result_entries_well_formed (catalog : list Breed.t) (input : Input.t)
    (collaborator : Prompt.request -> Prompt.reply) (result : Output.t)
    (entry : Recommended.t) :
  snd (run collaborator (recommendBreeds catalog input)) = Fulfilled result ->
  entry ∈ Output.recommendedBreeds result ->
  (exists b : Breed.t,
     b ∈ catalog /\ satisfiesConstraints input b /\
     Recommended.overallScore entry
       = ScoredBreed.overallScore (scoreBreed input b) /\
     Recommended.careLevel entry = Tier_to_string (Breed.careLevel b)) /\
  Recommended.careLevel entry ∈ ["Low"; "Medium"; "High"] /\
  1 <= Recommended.overallScore entry <= 99 # 10 /\
  is_subscore (Scores.milkYieldScore (Recommended.scores entry)) /\
  is_subscore (Scores.strengthScore (Recommended.scores entry)) /\
  is_subscore (Scores.careRequirementScore (Recommended.scores entry)) /\
  is_subscore (Scores.roiScore (Recommended.scores entry)) /\
  is_subscore (Scores.climateMatchScore (Recommended.scores entry)) /\
  (exists z : Z, Recommended.roi entry = inject_Z z).
Proof.
  intros H He.
  destruct (result_entry_origin _ _ _ _ _ H He) as (rec & b & Hin & Hsat & ->).
  split.
  { exists b. split; [exact Hin |]. split; [exact Hsat |].
    split; reflexivity. }
  split.
  { simpl. destruct (Breed.careLevel b); simpl; rewrite !elem_of_cons; auto. }
  split; [apply (reported_overallScore_window input b) |].
  simpl.
  split; [apply round_subscore, milkYieldScore_range |].
  split; [apply round_subscore, strengthScore_range |].
  split; [apply round_subscore, careRequirementScore_range |].
  split; [apply round_subscore, roiScore_range |].
  split; [apply round_subscore; unfold climateMatchScore; lra |].
  eexists. reflexivity.
Qed.

Lemma result_entries_well_formed_witness :
  1 <= Recommended.overallScore
         (mergeEntry
            (Examples.inventive_entry
               {| PromptBreed.overallScore := 99; PromptBreed.roi := -1;
                  PromptBreed.raw := Examples.scenarioA_breed |})
            (scoreBreed Examples.scenarioA_input Examples.scenarioA_breed))
    <= 99 # 10.
Proof.
  assert (Hrun : snd (run Examples.inventive_collaborator
                        (recommendBreeds [Examples.scenarioA_breed]
                           Examples.scenarioA_input))
                 = Fulfilled Examples.inventive_result).
  { vm_compute. reflexivity. }
  destruct (result_entries_well_formed _ _ _ _
              (mergeEntry
                 (Examples.inventive_entry
                    {| PromptBreed.overallScore := 99; PromptBreed.roi := -1;
                       PromptBreed.raw := Examples.scenarioA_breed |})
                 (scoreBreed Examples.scenarioA_input Examples.scenarioA_breed))
              Hrun) as (_ & _ & Hrange & _).
  { vm_compute. constructor. }
  exact Hrange.
Defined.

(** X11: for the low-maintenance goal every entry of a fulfilled request
    has care level Low and a care-requirement sub-score of 9, and the breed
    behind it costs 3000 a month to keep. *)
Theorem low_maintenance_entries (catalog : list Breed.t) (input : Input.t)
    (collaborator : Prompt.request -> Prompt.reply) (result : Output.t)
    (entry : Recommended.t) :
  Input.goal input = low_maintenance ->
  snd (run collaborator (recommendBreeds catalog input)) = Fulfilled result ->
  entry ∈ Output.recommendedBreeds result ->
  Recommended.careLevel entry = "Low" /\
  Scores.careRequirementScore (Recommended.scores entry) = 9 /\
  exists b : Breed.t,
    b ∈ catalog /\
    Recommended.overallScore entry
      = ScoredBreed.overallScore (scoreBreed input b) /\
    monthlyCost b = 3000.
Proof.
  intros Hgoal H He.
  destruct (result_entry_origin _ _ _ _ _ H He) as (rec & b & Hin & Hsat & ->).
  destruct Hsat as (_ & _ & [Hne | [Hcost Hcare]]); [contradiction |].
  simpl. unfold careRequirementScore, monthlyCost. rewrite Hcare.
  split; [reflexivity |]. split; [reflexivity |].
  exists b. split; [exact Hin |]. split; [reflexivity |].
  rewrite Hcost. reflexivity.
Qed.

Lemma low_maintenance_entries_witness :
  Recommended.careLevel
    (mergeEntry
       (Examples.inventive_entry
          {| PromptBreed.overallScore := 99; PromptBreed.roi := -1;
             PromptBreed.raw := Examples.scenarioA_breed |})
       (scoreBreed MoreExamples.low_maintenance_input Examples.scenarioA_breed))
  = "Low".
Proof.
  assert (Hrun : snd (run Examples.inventive_collaborator
                        (recommendBreeds [Examples.scenarioA_breed]
                           MoreExamples.low_maintenance_input))
                 = Fulfilled
                     {| Output.recommendedBreeds :=
                          [mergeEntry
                             (Examples.inventive_entry
                                {| PromptBreed.overallScore := 99;
                                   PromptBreed.roi := -1;
                                   PromptBreed.raw := Examples.scenarioA_breed |})
                             (scoreBreed MoreExamples.low_maintenance_input
                                Examples.scenarioA_breed)] |}).
  { vm_compute. reflexivity. }
  destruct (low_maintenance_entries [Examples.scenarioA_breed]
              MoreExamples.low_maintenance_input
              Examples.inventive_collaborator _
              (mergeEntry
                 (Examples.inventive_entry
                    {| PromptBreed.overallScore := 99; PromptBreed.roi := -1;
                       PromptBreed.raw := Examples.scenarioA_breed |})
                 (scoreBreed MoreExamples.low_maintenance_input
                    Examples.scenarioA_breed))
              eq_refl Hrun) as (Hcare & _).
  { simpl. constructor. }
  exact Hcare.
Defined.

(** * Properties of the decision-support form *)

(** ** The compare selection *)

Lemma length_handleBreedSelection (selected : list Recommended.t)
    (breed : Recommended.t) (isSelected : bool) :
  (length selected <= 3)%nat ->
  (length (UI.handleBreedSelection selected breed isSelected) <= 3)%nat.
Proof.
  intros H. unfold UI.handleBreedSelection. destruct isSelected.
  - destruct (Nat.ltb (length selected) 3) eqn:E; [| exact H].
    apply Nat.ltb_lt in E. rewrite length_app. simpl. lia.
  - etransitivity; [| exact H].
    apply sublist_length, filter_sublist_of.
Qed.

(** X12: the compare selection never holds more than 3 entries: starting
    from a selection of at most 3 (the empty one after every submit), no
    series of ticks and unticks makes it longer. *)
Theorem selection_at_most_three (selected : list Recommended.t)
    (clicks : list UI.click) :
  (length selected <= 3)%nat ->
  (length (UI.afterClicks selected clicks) <= 3)%nat.
Proof.
  revert selected. unfold UI.afterClicks.
  induction clicks as [| c clicks IH]; intros selected H; simpl.
  - exact H.
  - apply IH, length_handleBreedSelection, H.
Qed.

Lemma selection_at_most_three_witness :
  (length
     (UI.afterClicks []
        [(MoreExamples.gir, true); (MoreExamples.sahiwal, true);
         (MoreExamples.tharparkar, true); (MoreExamples.gir, true);
         (MoreExamples.sahiwal, false); (MoreExamples.gir, true)]) <= 3)%nat.
Proof. apply selection_at_most_three. simpl. lia. Defined.

Lemma isChosen_spec (selected : list Recommended.t) (rec : Recommended.t) :
  UI.isChosen selected rec = true <->
  exists b, b ∈ selected /\
            Recommended.breedName b = Recommended.breedName rec.
Proof.
  unfold UI.isChosen. rewrite existsb_exists.
  split; intros (b & Hb & Hn); exists b.
  - split; [apply list_elem_of_In, Hb | apply String.eqb_eq, Hn].
  - split; [apply list_elem_of_In, Hb | apply String.eqb_eq, Hn].
Qed.

Lemma filter_all_kept {A : Type} (f : A -> bool) (l : list A) :
  (forall x, x ∈ l -> f x = true) -> List.filter f l = l.
Proof.
  induction l as [| x l IH]; intros H; simpl; [reflexivity |].
  rewrite (H x) by left. f_equal. apply IH.
  intros y Hy. apply H. right. exact Hy.
Qed.

Lemma filter_twice {A : Type} (f : A -> bool) (l : list A) :
  List.filter f (List.filter f l) = List.filter f l.
Proof.
  apply filter_all_kept. intros x Hx.
  apply list_elem_of_In, filter_In in Hx. apply Hx.
Qed.

(** X13: unticking a breed removes every selected entry that bears its
    name and nothing else: the entries with other names stay, in their
    order; afterwards the breed does not count as chosen, and unticking it
    again changes nothing. *)
Theorem untick_removes_name (selected : list Recommended.t)
    (breed : Recommended.t) :
  UI.handleBreedSelection selected breed false `sublist_of` selected /\
  (forall x,
     x ∈ UI.handleBreedSelection selected breed false <->
     x ∈ selected /\
     Recommended.breedName x <> Recommended.breedName breed) /\
  UI.isChosen (UI.handleBreedSelection selected breed false) breed = false /\
  UI.handleBreedSelection (UI.handleBreedSelection selected breed false)
    breed false
  = UI.handleBreedSelection selected breed false.
Proof.
  unfold UI.handleBreedSelection.
  assert (Hmem : forall x,
            x ∈ List.filter
                  (fun b => negb (String.eqb (Recommended.breedName b)
                                             (Recommended.breedName breed)))
                  selected <->
            x ∈ selected /\
            Recommended.breedName x <> Recommended.breedName breed).
  { intros x. rewrite !list_elem_of_In, filter_In, negb_true_iff.
    rewrite String.eqb_neq. reflexivity. }
  split; [apply filter_sublist_of |].
  split; [exact Hmem |].
  split; [| apply filter_twice].
  destruct (UI.isChosen _ breed) eqn:E; [| reflexivity].
  apply isChosen_spec in E. destruct E as (b & Hb & Hn).
  apply Hmem in Hb. destruct Hb as [_ Hne]. contradiction.
Qed.

(** X14: ticking a breed and unticking it again restores the selection,
    provided there was room for it (fewer than 3 selected) and no selected
    entry already bore its name. *)
Theorem tick_untick_round_trip (selected : list Recommended.t)
    (breed : Recommended.t) :
  (length selected < 3)%nat ->
  UI.isChosen selected breed = false ->
  UI.handleBreedSelection
    (UI.handleBreedSelection selected breed true) breed false
  = selected.
Proof.
  intros Hlen Hnot. unfold UI.handleBreedSelection at 2.
  apply Nat.ltb_lt in Hlen. rewrite Hlen.
  unfold UI.handleBreedSelection. rewrite List.filter_app. simpl.
  rewrite String.eqb_refl. simpl. rewrite app_nil_r.
  apply filter_all_kept. intros x Hx.
  destruct (String.eqb (Recommended.breedName x)
              (Recommended.breedName breed)) eqn:E; [| reflexivity].
  assert (Hc : UI.isChosen selected breed = true).
  { apply isChosen_spec. exists x. split; [exact Hx |].
    apply String.eqb_eq, E. }
  congruence.
Qed.

Lemma tick_untick_round_trip_witness :
  UI.handleBreedSelection
    (UI.handleBreedSelection [MoreExamples.gir] MoreExamples.sahiwal true)
    MoreExamples.sahiwal false
  = [MoreExamples.gir].
Proof.
  apply tick_untick_round_trip.
  - simpl. lia.
  - reflexivity.
Defined.

(** X15: a compare checkbox is disabled exactly when its breed is not
    chosen and ticking it would be ignored because 3 are selected; so the
    checkbox of a chosen breed is never disabled, and an enabled checkbox of
    a breed that is not chosen always adds it at the end. *)
Theorem checkbox_disabled_iff (selected : list Recommended.t)
    (rec : Recommended.t) :
  (UI.checkboxDisabled selected rec = true <->
   UI.isChosen selected rec = false /\
   UI.handleBreedSelection selected rec true = selected) /\
  (UI.checkboxDisabled selected rec = false <->
   UI.isChosen selected rec = true \/
   UI.handleBreedSelection selected rec true = selected ++ [rec]).
Proof.
  unfold UI.checkboxDisabled, UI.handleBreedSelection.
  assert (Hgrow : selected ++ [rec] <> selected).
  { intros E. apply (f_equal length) in E. rewrite length_app in E.
    simpl in E. lia. }
  destruct (Nat.ltb (length selected) 3) eqn:Elt.
  - assert (Ele : Nat.leb 3 (length selected) = false).
    { apply Nat.ltb_lt in Elt. apply Nat.leb_gt. exact Elt. }
    rewrite Ele. simpl. split.
    + split; [discriminate | intros [_ E]; contradiction].
    + split; [intros _; right; reflexivity | reflexivity].
  - assert (Ele : Nat.leb 3 (length selected) = true).
    { apply Nat.ltb_ge in Elt. apply Nat.leb_le. exact Elt. }
    rewrite Ele. simpl.
    destruct (UI.isChosen selected rec); simpl; split.
    + split; [discriminate | intros [E _]; discriminate].
    + split; [intros _; left; reflexivity | reflexivity].
    + split; [intros _; split; reflexivity | reflexivity].
    + split; [discriminate |].
      intros [E | E]; [discriminate | symmetry in E; contradiction].
Qed.

(** ** Submitting the form *)

Lemma append_cons (c : Ascii.ascii) (s1 s2 : string) :
  String.append (String c s1) s2 = String c (String.append s1 s2).
Proof. reflexivity. Qed.

Lemma prefix_spec (sub s : string) :
  String.prefix sub s = true <-> exists post, s = String.append sub post.
Proof.
  revert sub. induction s as [| c s IH]; intros sub; destruct sub as [| a sub];
    simpl.
  - split; [intros _; exists EmptyString; reflexivity | reflexivity].
  - split; [discriminate | intros [post H]; discriminate].
  - split; [intros _; eexists; reflexivity | reflexivity].
  - destruct (Ascii.ascii_dec a c) as [-> | Hne].
    + rewrite IH. split; intros [post H]; exists post.
      * rewrite append_cons, H. reflexivity.
      * rewrite append_cons in H. congruence.
    + split; [discriminate |]. intros [post H].
      rewrite append_cons in H. congruence.
Qed.

Lemma String_includes_unfold (s sub : string) :
  String_includes s sub
  = if String.prefix sub s then true
    else match s with
         | EmptyString => false
         | String _ rest => String_includes rest sub
         end.
Proof. destruct s; reflexivity. Qed.

(** [String_includes s sub] holds exactly when [sub] occurs in [s]. *)
Lemma String_includes_spec (s sub : string) :
  String_includes s sub = true <->
  exists pre post, s = String.append pre (String.append sub post).
Proof.
  split.
  - induction s as [| c s IH]; rewrite String_includes_unfold;
      destruct (String.prefix sub _) eqn:E.
    + intros _. apply prefix_spec in E. destruct E as [post E].
      exists EmptyString, post. exact E.
    + discriminate.
    + intros _. apply prefix_spec in E. destruct E as [post E].
      exists EmptyString, post. exact E.
    + intros H. destruct (IH H) as (pre & post & ->).
      exists (String c pre), post. reflexivity.
  - intros (pre & post & ->).
    induction pre as [| c pre IH]; rewrite String_includes_unfold.
    + change (String.append EmptyString (String.append sub post))
        with (String.append sub post).
      assert (E : String.prefix sub (String.append sub post) = true).
      { apply prefix_spec. exists post. reflexivity. }
      rewrite E. reflexivity.
    + rewrite append_cons, IH.
      destruct (String.prefix sub _); reflexivity.
Qed.

Lemma onSubmit_fulfilled (catalog : list Breed.t)
    (collaborator : Prompt.request -> Prompt.reply) (t : UI.translations)
    (language : string) (values : UI.FormValues) (st : UI.state)
    (result : Output.t) :
  snd (run collaborator
         (recommendBreeds catalog (UI.toInput values language)))
    = Fulfilled result ->
  UI.onSubmit catalog collaborator t language values st
  = {| UI.isLoading := false; UI.error := None;
       UI.recommendations := Some result; UI.selectedBreeds := [] |}.
Proof. intros H. unfold UI.onSubmit. rewrite H. reflexivity. Qed.

Lemma onSubmit_rejected (catalog : list Breed.t)
    (collaborator : Prompt.request -> Prompt.reply) (t : UI.translations)
    (language : string) (values : UI.FormValues) (st : UI.state)
    (message : string) :
  snd (run collaborator
         (recommendBreeds catalog (UI.toInput values language)))
    = Rejected message ->
  UI.onSubmit catalog collaborator t language values st
  = {| UI.isLoading := false; UI.error := Some (UI.errorText t message);
       UI.recommendations := None; UI.selectedBreeds := [] |}.
Proof. intros H. unfold UI.onSubmit. rewrite H. reflexivity. Qed.

(** X16: once a submit has settled the form is no longer loading, the
    compare selection is empty, and the page holds either an error message
    or a recommendation list, never both and never neither; nothing of the
    state before the submit survives. *)
Theorem onSubmit_settled (catalog : list Breed.t)
    (collaborator : Prompt.request -> Prompt.reply) (t : UI.translations)
    (language : string) (values : UI.FormValues) (before before' : UI.state) :
  UI.isLoading (UI.onSubmit catalog collaborator t language values before)
    = false /\
  UI.selectedBreeds
    (UI.onSubmit catalog collaborator t language values before) = [] /\
  (UI.error (UI.onSubmit catalog collaborator t language values before)
     = None <->
   UI.recommendations
     (UI.onSubmit catalog collaborator t language values before) <> None) /\
  UI.onSubmit catalog collaborator t language values before
    = UI.onSubmit catalog collaborator t language values before'.
Proof.
  unfold UI.onSubmit.
  destruct (snd (run collaborator
                   (recommendBreeds catalog (UI.toInput values language))))
    as [result | message]; simpl.
  - repeat split; try reflexivity; [discriminate].
  - repeat split; try reflexivity; [discriminate | intros H; congruence].
Qed.

(** X17: when no catalog breed satisfies the constraints of the submitted
    values, the page ends with an empty recommendation list and no error,
    shows the "no breeds found" alert, and does so whatever the collaborator
    would have answered. *)
Theorem onSubmit_no_match (catalog : list Breed.t)
    (collaborator : Prompt.request -> Prompt.reply) (t : UI.translations)
    (language : string) (values : UI.FormValues) (before : UI.state) :
  (forall b, b ∈ catalog ->
             ~ satisfiesConstraints (UI.toInput values language) b) ->
  UI.onSubmit catalog collaborator t language values before
    = {| UI.isLoading := false; UI.error := None;
         UI.recommendations := Some {| Output.recommendedBreeds := [] |};
         UI.selectedBreeds := [] |} /\
  UI.noBreedsFoundShown
    (UI.onSubmit catalog collaborator t language values before) = true.
Proof.
  intros Hnone.
  assert (Hnil : filteredBreeds catalog (UI.toInput values language) = []).
  { destruct (filteredBreeds catalog (UI.toInput values language))
      as [| b l] eqn:E; [reflexivity |].
    assert (Hb : b ∈ filteredBreeds catalog (UI.toInput values language))
      by (rewrite E; left).
    apply elem_of_filteredBreeds in Hb. destruct Hb as [Hin Hkeep].
    apply keepBreed_spec in Hkeep. destruct (Hnone b Hin Hkeep). }
  assert (Hrun : snd (run collaborator
                        (recommendBreeds catalog (UI.toInput values language)))
                 = Fulfilled {| Output.recommendedBreeds := [] |}).
  { rewrite run_recommendBreeds, Hnil. reflexivity. }
  rewrite (onSubmit_fulfilled _ _ _ _ _ _ _ Hrun).
  split; reflexivity.
Qed.

Lemma onSubmit_no_match_witness :
  UI.noBreedsFoundShown
    (UI.onSubmit [Examples.scenarioA_breed] Examples.inventive_collaborator
       MoreExamples.en "en" MoreExamples.scenarioB_values MoreExamples.idle)
  = true.
Proof.
  apply (onSubmit_no_match [Examples.scenarioA_breed]
           Examples.inventive_collaborator MoreExamples.en "en"
           MoreExamples.scenarioB_values MoreExamples.idle).
  intros b Hb (Hprice & _).
  apply list_elem_of_singleton in Hb. subst b.
  apply Hprice. reflexivity.
Defined.

(** X18: when some breed passed the filter and the collaborator fails, the
    page shows an error and no list: the service-unavailable text when the
    failure message contains "503", the generic text when it does not, and
    always the generic text when the collaborator returned no output
    object. *)
Theorem onSubmit_error_text (catalog : list Breed.t)
    (collaborator : Prompt.request -> Prompt.reply) (t : UI.translations)
    (language : string) (values : UI.FormValues) (before : UI.state) :
  filteredBreeds catalog (UI.toInput values language) <> [] ->
  let request :=
    promptRequest (UI.toInput values language)
      (topBreeds catalog (UI.toInput values language)) in
  let after := UI.onSubmit catalog collaborator t language values before in
  (forall pre post,
     collaborator request
       = Prompt.Failed (String.append pre (String.append "503" post)) ->
     UI.error after = Some (UI.serviceUnavailableError t) /\
     UI.recommendations after = None) /\
  (forall message,
     collaborator request = Prompt.Failed message ->
     (forall pre post,
        message <> String.append pre (String.append "503" post)) ->
     UI.error after = Some (UI.errorDescription t) /\
     UI.recommendations after = None) /\
  (collaborator request = Prompt.Returned None ->
   UI.error after = Some (UI.errorDescription t) /\
   UI.recommendations after = None).
Proof.
  intros Hne request after.
  assert (Hrun : snd (run collaborator
                        (recommendBreeds catalog (UI.toInput values language)))
                 = match collaborator request with
                   | Prompt.Failed message => Rejected message
                   | Prompt.Returned None =>
                       Rejected "Failed to get recommendations from AI model."
                   | Prompt.Returned (Some output) =>
                       Fulfilled
                         (combinedResult
                            (topBreeds catalog (UI.toInput values language))
                            output)
                   end).
  { rewrite run_recommendBreeds, (filtered_nonempty _ _ Hne). reflexivity. }
  split; [| split].
  - intros pre post Hreply. rewrite Hreply in Hrun.
    unfold after. rewrite (onSubmit_rejected _ _ _ _ _ _ _ Hrun). simpl.
    split; [| reflexivity]. f_equal. unfold UI.errorText.
    assert (Hinc : String_includes
                     (String.append pre (String.append "503" post)) "503"
                   = true).
    { apply String_includes_spec. exists pre, post. reflexivity. }
    rewrite Hinc.
    destruct (String.append pre (String.append "503" post)) eqn:E;
      [destruct pre; discriminate | reflexivity].
  - intros message Hreply Hno. rewrite Hreply in Hrun.
    unfold after. rewrite (onSubmit_rejected _ _ _ _ _ _ _ Hrun). simpl.
    split; [| reflexivity]. f_equal. unfold UI.errorText.
    destruct (String_includes message "503") eqn:Hinc.
    + apply String_includes_spec in Hinc.
      destruct Hinc as (pre & post & E). destruct (Hno pre post E).
    + rewrite andb_false_r. reflexivity.
  - intros Hreply. rewrite Hreply in Hrun.
    unfold after. rewrite (onSubmit_rejected _ _ _ _ _ _ _ Hrun).
    split; reflexivity.
Qed.

Lemma onSubmit_error_text_witness :
  UI.error
    (UI.onSubmit [Examples.scenarioA_breed]
       MoreExamples.overloaded_collaborator MoreExamples.en "en"
       MoreExamples.scenarioA_values MoreExamples.idle)
  = Some (UI.serviceUnavailableError MoreExamples.en).
Proof.
  assert (Hne : filteredBreeds [Examples.scenarioA_breed]
                  (UI.toInput MoreExamples.scenarioA_values "en") <> []).
  { vm_compute. discriminate. }
  destruct (onSubmit_error_text [Examples.scenarioA_breed]
              MoreExamples.overloaded_collaborator MoreExamples.en "en"
              MoreExamples.scenarioA_values MoreExamples.idle Hne)
    as (H & _).
  apply (H "[" " Service Unavailable] The model is overloaded.").
  reflexivity.
Defined.

(** X19: the land-size slider has no effect on what the page shows: two
    submits whose values agree on goal, budget and regional climate end in
    the same state. *)
Theorem onSubmit_ignores_landSize (catalog : list Breed.t)
    (collaborator : Prompt.request -> Prompt.reply) (t : UI.translations)
    (language : string) (v1 v2 : UI.FormValues) (before : UI.state) :
  UI.goal v1 = UI.goal v2 ->
  UI.budget v1 = UI.budget v2 ->
  UI.regionalClimate v1 = UI.regionalClimate v2 ->
  UI.onSubmit catalog collaborator t language v1 before
  = UI.onSubmit catalog collaborator t language v2 before.
Proof.
  destruct v1 as [g1 b1 l1 c1], v2 as [g2 b2 l2 c2]. simpl.
  intros -> -> ->. reflexivity.
Qed.

Lemma onSubmit_ignores_landSize_witness :
  UI.onSubmit [Examples.scenarioA_breed] Examples.inventive_collaborator
    MoreExamples.en "en" MoreExamples.scenarioA_values MoreExamples.idle
  = UI.onSubmit [Examples.scenarioA_breed] Examples.inventive_collaborator
      MoreExamples.en "en" MoreExamples.larger_farm_values MoreExamples.idle.
Proof.
  apply onSubmit_ignores_landSize; reflexivity.
Defined.
